(** * OAuth token lifecycle and authenticated requests of the Zoho integration

    A shallow embedding of the token handling code of the repository:

    - [Server]: MCPServers/zoho-crm-mcp-server/src/zoho_crm_mcp/server.py
    - [Consolidated]: snapshots/.../MCPServers/consolidated_zoho_mcp_server.py
    - [Legacy]: snapshots/.../MCPServers/legacy_zoho_mcp/zoho_mcp_server.py
    - [Client]: backend/app/integrations/zoho/client.py
    - [Breaker]: backend/app/core/error_handler.py (circuit_breaker)

    Module-level globals and instance attributes become fields of an explicit
    state; the network is a function of the history of the requests sent so
    far, so every statement holds for every behaviour of the remote side. *)

From Stdlib Require Import ZArith List String Bool Lia DecimalString Sorted
  Permutation.
Import ListNotations.
Open Scope string_scope.
Open Scope Z_scope.

(** ** Python values shared by the modules *)

(** Truth value of an [Optional[str]]: [None] and [''] are falsy. *)
Definition truthy (o : option string) : bool :=
  match o with
  | Some s => negb (s =? "")%string
  | None => false
  end.

(** [f"{x}"] for an [Optional[str]]. *)
Definition py_str (o : option string) : string :=
  match o with
  | Some s => s
  | None => "None"
  end.

(** [f"{n}"] for an [int]. *)
Definition str_of_int (n : Z) : string := NilZero.string_of_int (Z.to_int n).

(** The character [U+0022]. *)
Definition dquote : string := String (Ascii.ascii_of_nat 34) EmptyString.

(** [x or d] for an [Optional[int]]: [None] and [0] both give [d]. *)
Definition int_or (x : option Z) (d : Z) : Z :=
  match x with
  | Some v => if v =? 0 then d else v
  | None => d
  end.

(** [d.get(k, default)] for an integer field. *)
Definition get_default (x : option Z) (d : Z) : Z :=
  match x with
  | Some v => v
  | None => d
  end.

Inductive exn : Type :=
| Exception (msg : string)
| HTTPException (status_code : Z) (detail : string)
| IndexError
| KeyError (key : string)
| TypeError (msg : string)
| ValueError (msg : string)
| OverflowError (msg : string)
| NetworkFailure (msg : string).

Definition exn_str (e : exn) : string :=
  match e with
  | Exception m => m
  | HTTPException _ d => d
  | IndexError => "list index out of range"
  | KeyError k => "'" ++ k ++ "'"
  | TypeError m => m
  | ValueError m => m
  | OverflowError m => m
  | NetworkFailure m => m
  end.

(** ** [datetime] and [timedelta]

    A naive [datetime] is the number of microseconds from
    1970-01-01T00:00:00 to it on its own calendar, negative before; a
    [timedelta] is a number of microseconds. Both types are bounded, and an
    operation whose result leaves the bounds raises [OverflowError]. *)

(** [datetime.min], 0001-01-01T00:00:00, and [datetime.max],
    9999-12-31T23:59:59.999999. *)
Definition datetime_min : Z := -62135596800000000.
Definition datetime_max : Z := 253402300799999999.

(** [timedelta(seconds=n)] for an [int]: at most 999999999 days either way;
    the message tells whether the number of days still fits a C [int]. *)
Definition timedelta (seconds : Z) : exn + Z :=
  let days := seconds / 86400 in
  if (-999999999 <=? days) && (days <=? 999999999) then
    inr (seconds * 1000000)
  else if (-2147483648 <=? days) && (days <=? 2147483647) then
    inl (OverflowError ("days=" ++ str_of_int days
                          ++ "; must have magnitude <= 999999999"))
  else inl (OverflowError "Python int too large to convert to C int").

(** [t + d] for a [datetime] and a [timedelta]. *)
Definition datetime_add (t d : Z) : exn + Z :=
  if (datetime_min <=? t + d) && (t + d <=? datetime_max) then inr (t + d)
  else inl (OverflowError "date value out of range").

(** [now + timedelta(seconds=n)] *)
Definition datetime_after (now seconds : Z) : exn + Z :=
  match timedelta seconds with
  | inl e => inl e
  | inr d => datetime_add now d
  end.

Inductive outcome (A : Type) : Type :=
| Return (a : A)
| Raise (e : exn).
Arguments Return {A} a.
Arguments Raise {A} e.

(** A key of a JSON object: absent, [null], or holding a value. *)
Inductive jfield (A : Type) : Type :=
| Missing
| Null
| Value (a : A).
Arguments Missing {A}.
Arguments Null {A}.
Arguments Value {A} a.

(** [d.get(k)] *)
Definition jget {A} (f : jfield A) : option A :=
  match f with
  | Value a => Some a
  | _ => None
  end.

(** The JSON body of a token response: the three keys the code reads.
    [expires_in], when present, is an integer. *)
Record token_data : Type := mk_token_data {
  td_access_token : jfield string;
  td_refresh_token : option string;
  td_expires_in : option Z
}.

(** A response of the authorization endpoint. [auth_json = None] stands for
    a body on which [response.json()] raises. *)
Record auth_response : Type := mk_auth_response {
  auth_status : Z;
  auth_text : string;
  auth_json : option token_data
}.

(** A response of the resource API. *)
Record api_response : Type := mk_api_response {
  status_code : Z;
  text : string
}.

(** The form posted to the authorization endpoint. *)
Inductive auth_form : Type :=
| RefreshGrant (refresh_token : option string) (client_id client_secret : option string)
| ClientCredentialsGrant (client_id client_secret : option string) (scope : string).

Record api_request : Type := mk_api_request {
  req_method : string;
  req_url : string;
  req_authorization : string;
  req_data : option string
}.

(** What has been sent over the network, oldest first. *)
Inductive event : Type :=
| AuthPost (f : auth_form)
| ApiCall (r : api_request).

Definition is_api_call (e : event) : bool :=
  match e with ApiCall _ => true | AuthPost _ => false end.

Definition is_auth_post (e : event) : bool :=
  match e with AuthPost _ => true | ApiCall _ => false end.

Definition api_calls (l : list event) : nat := List.length (filter is_api_call l).
Definition auth_posts (l : list event) : nat := List.length (filter is_auth_post l).

(** The remote side: each reply may depend on everything sent before and on
    the request itself; [inl] is a transport error raised by the HTTP
    library. *)
Record network : Type := mk_network {
  auth_endpoint : list event -> auth_form -> string + auth_response;
  api_endpoint : list event -> api_request -> string + api_response
}.

(** ** State and exception monad

    [S] is the mutable state a module works on (its globals or the
    attributes of [self], with the part of the outside world it touches);
    an exception leaves the state as it was when it was raised. *)

Definition M (S A : Type) : Type := S -> outcome A * S.

Definition ret {S A} (a : A) : M S A := fun w => (Return a, w).

Definition bind {S A B} (m : M S A) (k : A -> M S B) : M S B :=
  fun w =>
    match m w with
    | (Return a, w') => k a w'
    | (Raise e, w') => (Raise e, w')
    end.

Definition raise {S A} (e : exn) : M S A := fun w => (Raise e, w).

Definition try_except {S A} (m : M S A) (h : exn -> M S A) : M S A :=
  fun w =>
    match m w with
    | (Return a, w') => (Return a, w')
    | (Raise e, w') => h e w'
    end.

Definition get {S} : M S S := fun w => (Return w, w).
Definition modify {S} (f : S -> S) : M S unit := fun w => (Return tt, f w).

Notation "x <- m ;; k" := (bind m (fun x => k))
  (at level 61, m at next level, right associativity).
Notation "m ;;; k" := (bind m (fun _ => k))
  (at level 61, right associativity).

Definition when {S} (b : bool) (m : M S unit) : M S unit :=
  if b then m else ret tt.

(** ** server.py: the MCP server *)

Module Server.

(** The document kept in [.tokens.json]. *)
Record token_doc : Type := mk_token_doc {
  doc_access_token : option string;
  doc_refresh_token : option string;
  doc_created_at : option Z;
  doc_expires_in : option Z
}.

Inductive file_state : Type :=
| FileAbsent
| FileCorrupt
| FileJson (d : token_doc).

(** Environment variables read at import time. *)
Record environ : Type := mk_environ {
  ZOHO_CLIENT_ID : option string;
  ZOHO_CLIENT_SECRET : option string;
  ZOHO_REFRESH_TOKEN : string;
  ZOHO_ACCESS_TOKEN : string;
  ZOHO_CRM_BASE_URL : string
}.

(** The module globals, the token file, the clock and the network log. *)
Record world : Type := mk_world {
  current_access_token : option string;
  current_refresh_token : option string;
  TOKEN_FILE : file_state;
  file_writable : bool;
  time_time : Z;
  sent : list event
}.

Definition set_access (a : option string) (w : world) : world :=
  mk_world a (current_refresh_token w) (TOKEN_FILE w) (file_writable w)
           (time_time w) (sent w).

Definition set_refresh (r : option string) (w : world) : world :=
  mk_world (current_access_token w) r (TOKEN_FILE w) (file_writable w)
           (time_time w) (sent w).

Definition set_file (f : file_state) (w : world) : world :=
  mk_world (current_access_token w) (current_refresh_token w) f
           (file_writable w) (time_time w) (sent w).

Definition record_event (e : event) (w : world) : world :=
  mk_world (current_access_token w) (current_refresh_token w) (TOKEN_FILE w)
           (file_writable w) (time_time w) (sent w ++ [e]).

(** A new process: the globals start as [None], the file is what the last
    process left. *)
Definition restart (w : world) : world :=
  mk_world None None (TOKEN_FILE w) (file_writable w) (time_time w) (sent w).

Definition M : Type -> Type := M world.

Section WithEnvironment.

Variable env : environ.
Variable net : network.

(** [requests.post(ZOHO_AUTH_URL, data=data)] *)
Definition requests_post (f : auth_form) : M auth_response :=
  fun w =>
    let w' := record_event (AuthPost f) w in
    match auth_endpoint net (sent w) f with
    | inl msg => (Raise (NetworkFailure msg), w')
    | inr r => (Return r, w')
    end.

(** [requests.request(method, url, **kwargs)] *)
Definition requests_request (r : api_request) : M api_response :=
  fun w =>
    let w' := record_event (ApiCall r) w in
    match api_endpoint net (sent w) r with
    | inl msg => (Raise (NetworkFailure msg), w')
    | inr resp => (Return resp, w')
    end.

(** [response.json()] *)
Definition response_json (r : auth_response) : M token_data :=
  match auth_json r with
  | Some d => ret d
  | None => raise (Exception "Expecting value")
  end.

Definition sentinel : string := "Generate-from-OAuth".

Definition load_tokens : M bool :=
  w <- get ;;
  match TOKEN_FILE w with
  | FileJson tokens =>
      modify (set_access (doc_access_token tokens)) ;;;
      modify (set_refresh (doc_refresh_token tokens)) ;;;
      ret true
  | _ =>
      (* no file, or an exception while reading it *)
      when (negb (ZOHO_ACCESS_TOKEN env =? sentinel)%string)
           (modify (set_access (Some (ZOHO_ACCESS_TOKEN env)))) ;;;
      when (negb (ZOHO_REFRESH_TOKEN env =? sentinel)%string)
           (modify (set_refresh (Some (ZOHO_REFRESH_TOKEN env)))) ;;;
      w' <- get ;;
      ret (match current_access_token w' with Some _ => true | None => false end)
  end.

(** [open(TOKEN_FILE, 'w')] followed by [json.dump]; a failure is printed
    and swallowed. *)
Definition write_file (d : token_doc) : M unit :=
  w <- get ;;
  when (file_writable w) (modify (set_file (FileJson d))).

Definition save_tokens (access_token refresh_token : option string)
    (expires_in : option Z) : M unit :=
  when (truthy access_token) (modify (set_access access_token)) ;;;
  when (truthy refresh_token) (modify (set_refresh refresh_token)) ;;;
  w <- get ;;
  write_file
    (mk_token_doc (current_access_token w) (current_refresh_token w)
                  (Some (time_time w)) (Some (int_or expires_in 3600))).

(** The dictionary returned by [refresh_access_token]. *)
Inductive refresh_result : Type :=
| RefreshSuccess (token : option string)
| RefreshError (error : string).

Definition refresh_success (r : refresh_result) : bool :=
  match r with RefreshSuccess _ => true | RefreshError _ => false end.

Definition refresh_access_token : M refresh_result :=
  w <- get ;;
  if negb (truthy (current_refresh_token w)) then
    ret (RefreshError "No refresh token available. Need to complete OAuth setup first.")
  else
    try_except
      (response <- requests_post
                     (RefreshGrant (current_refresh_token w)
                                   (ZOHO_CLIENT_ID env) (ZOHO_CLIENT_SECRET env)) ;;
       if auth_status response =? 200 then
         token_data <- response_json response ;;
         modify (set_access (jget (td_access_token token_data))) ;;;
         save_tokens (jget (td_access_token token_data)) None
                     (td_expires_in token_data) ;;;
         ret (RefreshSuccess (jget (td_access_token token_data)))
       else
         ret (RefreshError ("Token refresh failed: " ++ auth_text response)))
      (fun e => ret (RefreshError ("Token refresh error: " ++ exn_str e))).

(** The dictionary returned by [generate_oauth_tokens]. *)
Inductive oauth_result : Type :=
| OAuthSuccess (access_token refresh_token : option string) (expires_in : Z)
| OAuthError (error : string) (needs_authorization_code : bool).

Definition oauth_success (r : oauth_result) : bool :=
  match r with OAuthSuccess _ _ _ => true | OAuthError _ _ => false end.

Definition generate_oauth_tokens : M oauth_result :=
  if negb (truthy (ZOHO_CLIENT_ID env)) || negb (truthy (ZOHO_CLIENT_SECRET env)) then
    ret (OAuthError "Missing client credentials" false)
  else
    try_except
      (response <- requests_post
                     (ClientCredentialsGrant
                        (ZOHO_CLIENT_ID env) (ZOHO_CLIENT_SECRET env)
                        "ZohoCRM.modules.ALL,ZohoCRM.settings.ALL,ZohoCRM.org.ALL") ;;
       if auth_status response =? 200 then
         token_data <- response_json response ;;
         let expires_in := get_default (td_expires_in token_data) 3600 in
         save_tokens (jget (td_access_token token_data))
                     (td_refresh_token token_data) (Some expires_in) ;;;
         ret (OAuthSuccess (jget (td_access_token token_data))
                           (td_refresh_token token_data) expires_in)
       else
         ret (OAuthError ("OAuth token generation failed: " ++ auth_text response) true))
      (fun e => ret (OAuthError ("OAuth generation error: " ++ exn_str e) false)).

Definition ensure_valid_token : M bool :=
  w0 <- get ;;
  when (negb (truthy (current_access_token w0))) (load_tokens ;;; ret tt) ;;;
  w1 <- get ;;
  refreshed <-
    (if truthy (current_refresh_token w1) && negb (truthy (current_access_token w1))
     then refresh_result <- refresh_access_token ;;
          ret (refresh_success refresh_result)
     else ret false) ;;
  if refreshed then ret true
  else
    w2 <- get ;;
    if negb (truthy (current_access_token w2)) then
      oauth_result <- generate_oauth_tokens ;;
      ret (oauth_success oauth_result)
    else ret true.

(** The value of the [Authorization] header; [Content-Type] is constant. *)
Definition get_auth_headers : M string :=
  w <- get ;;
  when (negb (truthy (current_access_token w))) (ensure_valid_token ;;; ret tt) ;;;
  w' <- get ;;
  ret ("Zoho-oauthtoken " ++ py_str (current_access_token w')).

Definition make_authenticated_request (method url : string)
    (data : option string) : M api_response :=
  headers <- get_auth_headers ;;
  response <- requests_request (mk_api_request method url headers data) ;;
  if status_code response =? 401 then
    refresh_result <- refresh_access_token ;;
    if refresh_success refresh_result then
      headers <- get_auth_headers ;;
      requests_request (mk_api_request method url headers data)
    else ret response
  else ret response.

(** The dictionary returned by a tool. *)
Inductive tool_result : Type :=
| ToolSuccess (message : string) (access_token : option string)
| ToolError (message : string) (code : option Z).

(** [current_access_token[:20] + "..." if current_access_token else "None"] *)
Definition preview (o : option string) : string :=
  match o with
  | Some s => if (s =? "")%string then "None" else substring 0 20 s ++ "..."
  | None => "None"
  end.

(** [json.dumps({"data": records_data})], the records given as their JSON
    texts. *)
Definition json_dumps_payload (records_data : list string) : string :=
  "{" ++ dquote ++ "data" ++ dquote ++ ": ["
      ++ String.concat ", " records_data ++ "]}".

(** [response.json().get("data", [])] of a response of the API: the
    exception it raises, if any, on a body that is no JSON or no JSON
    object. *)
Variable json_get_data : api_response -> option exn.

(** The [data] entry of the result dictionaries is left out. *)
Definition bulk_create_records (module_name : string)
    (records_data : list string) : M tool_result :=
  let url := ZOHO_CRM_BASE_URL env ++ "/" ++ module_name in
  if (100 <? Z.of_nat (List.length records_data)) then
    ret (ToolError "Maximum 100 records allowed per bulk operation" None)
  else
    response <- make_authenticated_request "POST" url
                  (Some (json_dumps_payload records_data)) ;;
    if status_code response =? 201 then
      match json_get_data response with
      | Some e => raise e
      | None =>
          ret (ToolSuccess (str_of_int (Z.of_nat (List.length records_data))
                              ++ " records created successfully") None)
      end
    else
      ret (ToolError (text response) (Some (status_code response))).

Definition set_refresh_token (refresh_token : string) : M tool_result :=
  try_except
    (modify (set_refresh (Some refresh_token)) ;;;
     save_tokens None (Some refresh_token) None ;;;
     refresh_result <- refresh_access_token ;;
     match refresh_result with
     | RefreshSuccess _ =>
         w <- get ;;
         ret (ToolSuccess "Refresh token set successfully and access token generated"
                          (Some (preview (current_access_token w))))
     | RefreshError error =>
         ret (ToolError ("Refresh token saved but failed to generate access token: "
                           ++ error) None)
     end)
    (fun e => ret (ToolError ("Failed to set refresh token: " ++ exn_str e) None)).

End WithEnvironment.

End Server.

(** ** consolidated_zoho_mcp_server.py: the token store

    [load_tokens] and [save_tokens] touch no network and let no exception
    out, so they are plain functions on the state. The datetimes of this
    server are local ones; each is represented by the instant it denotes,
    in microseconds from the POSIX epoch, the UTC offset of the process
    being constant. [time_time] is the reading of [int(time.time())], in
    seconds. [datetime.fromtimestamp] is taken to succeed: its failure on a
    timestamp outside the range of the platform is not modelled. *)

Module Consolidated.

Record token_doc : Type := mk_token_doc {
  doc_access_token : option string;
  doc_refresh_token : option string;
  doc_created_at : option Z;
  doc_expires_in : option Z
}.

Inductive file_state : Type :=
| FileAbsent
| FileCorrupt
| FileJson (d : token_doc).

Record state : Type := mk_state {
  _access_token : option string;
  _refresh_token : option string;
  _token_expires_at : option Z;
  TOKEN_FILE : file_state;
  file_writable : bool;
  time_time : Z
}.

Section WithConfig.

(** [zoho_config.refresh_token] *)
Variable config_refresh_token : option string.

Definition sentinel : string := "Generate-from-OAuth".

Definition load_tokens (s : state) : bool * state :=
  match TOKEN_FILE s with
  | FileJson tokens =>
      let created_at := get_default (doc_created_at tokens) 0 in
      let expires_in := get_default (doc_expires_in tokens) 3600 in
      (true,
       mk_state (doc_access_token tokens) (doc_refresh_token tokens)
                (Some ((created_at + expires_in - 300) * 1000000))
                (TOKEN_FILE s) (file_writable s) (time_time s))
  | _ =>
      let r :=
        match config_refresh_token with
        | Some c =>
            if truthy config_refresh_token && negb (c =? sentinel)%string
            then config_refresh_token else _refresh_token s
        | None => _refresh_token s
        end in
      (match _access_token s with Some _ => true | None => false end,
       mk_state (_access_token s) r (_token_expires_at s)
                (TOKEN_FILE s) (file_writable s) (time_time s))
  end.

Definition save_tokens (access_token refresh_token : option string)
    (expires_in : option Z) (s : state) : state :=
  let a := if truthy access_token then access_token else _access_token s in
  let r := if truthy refresh_token then refresh_token else _refresh_token s in
  let token_data :=
    mk_token_doc a r (Some (time_time s)) (Some (int_or expires_in 3600)) in
  mk_state a r (_token_expires_at s)
           (if file_writable s then FileJson token_data else TOKEN_FILE s)
           (file_writable s) (time_time s).

(** A new process: the globals start as [None], the file is what the last
    process left. *)
Definition restart (s : state) : state :=
  mk_state None None None (TOKEN_FILE s) (file_writable s) (time_time s).

End WithConfig.

End Consolidated.

(** ** legacy_zoho_mcp/zoho_mcp_server.py *)

Module Legacy.

Record config : Type := mk_config {
  cfg_refresh_token : option string;
  cfg_client_id : option string;
  cfg_client_secret : option string;
  cfg_base_url : string
}.

(** The globals, the clock (the reading of [datetime.now()]) and the
    network log. *)
Record state : Type := mk_state {
  _access_token : option string;
  _token_expires_at : option Z;
  now : Z;
  sent : list event
}.

Definition record_event (e : event) (s : state) : state :=
  mk_state (_access_token s) (_token_expires_at s) (now s) (sent s ++ [e]).

Definition set_token (a : option string) (e : option Z) (s : state) : state :=
  mk_state a e (now s) (sent s).

Section WithConfig.

Variable ZOHO_CONFIG : config.
Variable net : network.

(** [response.json()] of a response of the API: the value, as text, or the
    message of the [JSONDecodeError], which is a
    [requests.RequestException]. *)
Variable response_json : api_response -> string + string.

Definition requests_post (f : auth_form) : M state auth_response :=
  fun s =>
    let s' := record_event (AuthPost f) s in
    match auth_endpoint net (sent s) f with
    | inl msg => (Raise (NetworkFailure msg), s')
    | inr r => (Return r, s')
    end.

Definition requests_send (r : api_request) : M state api_response :=
  fun s =>
    let s' := record_event (ApiCall r) s in
    match api_endpoint net (sent s) r with
    | inl msg => (Raise (NetworkFailure msg), s')
    | inr resp => (Return resp, s')
    end.

(** [except requests.RequestException as e]: only the errors of the HTTP
    library are caught; an [HTTPException], a [ValueError] or an
    [OverflowError] passes through. *)
Definition except_RequestException {A} (m : M state A)
    (h : string -> M state A) : M state A :=
  try_except m
    (fun e => match e with
              | NetworkFailure msg => h msg
              | _ => raise e
              end).

Definition token_usable (s : state) : bool :=
  truthy (_access_token s) &&
  match _token_expires_at s with
  | Some t => now s <? t
  | None => false
  end.

Definition get_valid_token : M state (option string) :=
  s <- get ;;
  if token_usable s then ret (_access_token s)
  else
    except_RequestException
      (response <- requests_post
                     (RefreshGrant (cfg_refresh_token ZOHO_CONFIG)
                                   (cfg_client_id ZOHO_CONFIG)
                                   (cfg_client_secret ZOHO_CONFIG)) ;;
       if negb (auth_status response =? 200) then
         raise (HTTPException 500 "Failed to refresh Zoho access token")
       else
         match auth_json response with
         | None =>
             (* requests' JSONDecodeError is a RequestException *)
             raise (NetworkFailure "Expecting value")
         | Some token_data =>
             match td_access_token token_data with
             | Missing =>
                 raise (HTTPException 500 "Invalid token response from Zoho")
             | field =>
                 modify (fun s' =>
                   set_token (jget field) (_token_expires_at s') s') ;;;
                 let expires_in := get_default (td_expires_in token_data) 3600 in
                 s' <- get ;;
                 match datetime_after (now s') (expires_in - 300) with
                 | inl e => raise e
                 | inr t =>
                     modify (set_token (jget field) (Some t)) ;;;
                     ret (jget field)
                 end
             end
         end)
      (fun msg =>
         raise (HTTPException 500 ("Token refresh network error: " ++ msg))).

(** [method.upper()] of the methods the function knows. *)
Inductive http_method : Type := GET | POST | PUT | OtherMethod (name : string).


(** The dictionary returned is given as text. *)
Definition make_zoho_request (method : http_method) (endpoint : string)
    (data : option string) : M state string :=
  token <- get_valid_token ;;
  let authorization := "Zoho-oauthtoken " ++ py_str token in
  let url := cfg_base_url ZOHO_CONFIG ++ endpoint in
  except_RequestException
    (response <-
       match method with
       | GET => requests_send (mk_api_request "GET" url authorization None)
       | POST => requests_send (mk_api_request "POST" url authorization data)
       | PUT => requests_send (mk_api_request "PUT" url authorization data)
       | OtherMethod n =>
           raise (ValueError ("Unsupported HTTP method: " ++ n))
       end ;;
     if negb ((status_code response =? 200) || (status_code response =? 201)) then
       raise (HTTPException 500
                ("Zoho API error: " ++ str_of_int (status_code response)
                   ++ " - " ++ substring 0 200 (text response)))
     else
       match response_json response with
       | inl msg => raise (NetworkFailure msg)
       | inr result => ret result
       end)
    (fun msg => raise (HTTPException 500 ("Zoho API network error: " ++ msg))).

End WithConfig.

End Legacy.

(** ** integrations/zoho/client.py: ZohoClient

    The clock is the reading of [datetime.utcnow()]. Sleeps and the width of
    the rate window are in microseconds, the resolution of [datetime]. *)

Module Client.

Definition timedelta_seconds (n : Z) : Z := n * 1000000.
Definition timedelta_minutes (n : Z) : Z := timedelta_seconds (60 * n).

(** The attributes of [self], the clock, the network log and the sleeps
    performed (in microseconds, oldest first). *)
Record state : Type := mk_state {
  client_id : option string;
  client_secret : option string;
  refresh_token : option string;
  access_token : option string;
  token_expires_at : option Z;
  max_requests_per_minute : Z;
  request_timestamps : list Z;
  utcnow : Z;
  sent : list event;
  slept : list Z
}.

Definition set_token (a : option string) (e : option Z) (s : state) : state :=
  mk_state (client_id s) (client_secret s) (refresh_token s) a e
           (max_requests_per_minute s) (request_timestamps s)
           (utcnow s) (sent s) (slept s).

Definition set_timestamps (l : list Z) (s : state) : state :=
  mk_state (client_id s) (client_secret s) (refresh_token s)
           (access_token s) (token_expires_at s)
           (max_requests_per_minute s) l (utcnow s) (sent s) (slept s).

Definition record_event (e : event) (s : state) : state :=
  mk_state (client_id s) (client_secret s) (refresh_token s)
           (access_token s) (token_expires_at s)
           (max_requests_per_minute s) (request_timestamps s)
           (utcnow s) (sent s ++ [e]) (slept s).

(** [await asyncio.sleep(d)]: the clock moves on by [d]. *)
Definition asyncio_sleep (d : Z) : M state unit :=
  modify (fun s =>
    mk_state (client_id s) (client_secret s) (refresh_token s)
             (access_token s) (token_expires_at s)
             (max_requests_per_minute s) (request_timestamps s)
             (utcnow s + d) (sent s) (slept s ++ [d])).

(** [__init__]: credentials from the environment, no expiry known, an empty
    rate window and a limit of 100 requests per minute. *)
Definition init (id secret refresh access : option string) (clock : Z) : state :=
  mk_state id secret refresh access None 100 [] clock [] [].

Section WithNetwork.

Variable net : network.

Definition refresh_form (s : state) : auth_form :=
  RefreshGrant (refresh_token s) (client_id s) (client_secret s).

(** [session.post(self.auth_url, data=data)] up to the point where the
    coroutine is suspended: the request is on the wire, the reply is what
    the endpoint will answer to it. *)
Definition post_sent (s : state) : (string + auth_response) * state :=
  (auth_endpoint net (sent s) (refresh_form s),
   record_event (AuthPost (refresh_form s)) s).

(** The rest of [_refresh_access_token], run when the reply is in. The
    access token is assigned first; when the expiry cannot be computed the
    [OverflowError] leaves the function with the new token stored next to
    the expiry of the old one. *)
Definition on_post_reply (reply : string + auth_response) : M state unit :=
  match reply with
  | inl msg => raise (NetworkFailure msg)
  | inr response =>
      if auth_status response =? 200 then
        match auth_json response with
        | None => raise (Exception "Attempt to decode JSON with unexpected mimetype")
        | Some token_data =>
            match td_access_token token_data with
            | Missing => raise (KeyError "access_token")
            | field =>
                modify (fun s => set_token (jget field) (token_expires_at s) s) ;;;
                let expires_in := get_default (td_expires_in token_data) 3600 in
                s <- get ;;
                match datetime_after (utcnow s) (expires_in - 60) with
                | inl e => raise e
                | inr t => modify (set_token (access_token s) (Some t))
                end
            end
        end
      else
        raise (Exception ("Token refresh failed: " ++ auth_text response))
  end.

Definition _refresh_access_token : M state unit :=
  fun s =>
    let (reply, s') := post_sent s in
    on_post_reply reply s'.

(** The condition of [_ensure_valid_token]. *)
Definition token_stale (s : state) : bool :=
  match access_token s, token_expires_at s with
  | Some _, Some t => t <=? utcnow s
  | _, _ => true
  end.

Definition _ensure_valid_token : M state unit :=
  s <- get ;;
  if token_stale s then _refresh_access_token else ret tt.

Definition _rate_limit_check : M state unit :=
  s <- get ;;
  let now := utcnow s in
  let kept := filter (fun ts => now - ts <? timedelta_minutes 1)
                     (request_timestamps s) in
  modify (set_timestamps kept) ;;;
  (if max_requests_per_minute s <=? Z.of_nat (List.length kept) then
     match kept with
     | [] => raise IndexError
     | ts0 :: _ =>
         let sleep_time := timedelta_seconds 60 - (now - ts0) in
         when (0 <? sleep_time) (asyncio_sleep sleep_time)
     end
   else ret tt) ;;;
  modify (fun s' => set_timestamps (request_timestamps s' ++ [now]) s').

Definition session_request (r : api_request) : M state api_response :=
  fun s =>
    let s' := record_event (ApiCall r) s in
    match api_endpoint net (sent s) r with
    | inl msg => (Raise (NetworkFailure msg), s')
    | inr resp => (Return resp, s')
    end.

Definition authorization_of (s : state) : string :=
  "Zoho-oauthtoken " ++ py_str (access_token s).

(** How one turn of the [for attempt in range(3)] body ends when it raises
    nothing: [continue] with the new header, or [return]. The returned
    dictionary is a function of the response text alone and is represented
    by it. *)
Inductive turn : Type :=
| Continue (authorization : string)
| Returned (response_text : string).

Definition attempt_body (method url : string) (data : option string)
    (authorization : string) : M state turn :=
  response <- session_request (mk_api_request method url authorization data) ;;
  if status_code response =? 401 then
    _refresh_access_token ;;;
    s <- get ;;
    ret (Continue (authorization_of s))
  else if 400 <=? status_code response then
    raise (Exception ("API error " ++ str_of_int (status_code response)
                        ++ ": " ++ text response))
  else ret (Returned (text response)).

(** The loop, [remaining] turns before [range(3)] is exhausted. [None] is
    the value of a call that falls off the end of the function. *)
Fixpoint request_loop (remaining : nat) (attempt : Z) (method url : string)
    (data : option string) (authorization : string) : M state (option string) :=
  match remaining with
  | O => ret None
  | S k =>
      t <- try_except
             (t <- attempt_body method url data authorization ;; ret (Some t))
             (fun e =>
                if attempt =? 2 then raise e
                else asyncio_sleep (timedelta_seconds (2 ^ attempt)) ;;; ret None) ;;
      match t with
      | Some (Returned v) => ret (Some v)
      | Some (Continue authorization') =>
          request_loop k (attempt + 1) method url data authorization'
      | None => request_loop k (attempt + 1) method url data authorization
      end
  end.

Definition _make_request (method url : string) (data : option string)
    : M state (option string) :=
  _ensure_valid_token ;;;
  _rate_limit_check ;;;
  s <- get ;;
  request_loop 3 0 method url data (authorization_of s).

(** *** Coroutines running [_ensure_valid_token] on one client

    A coroutine runs without interruption up to its next suspension, which
    for [_ensure_valid_token] is the wait for the reply of the token
    endpoint. The event loop resumes the coroutines in some order, the
    schedule. *)

Inductive task : Type :=
| Created
| AwaitingReply (reply : string + auth_response)
| Finished (r : outcome unit).

Definition resume (t : task) (s : state) : task * state :=
  match t with
  | Created =>
      if token_stale s then
        let (reply, s') := post_sent s in (AwaitingReply reply, s')
      else (Finished (Return tt), s)
  | AwaitingReply reply =>
      let (r, s') := on_post_reply reply s in (Finished r, s')
  | Finished r => (Finished r, s)
  end.

Fixpoint resume_nth (i : nat) (tasks : list task) (s : state)
    : list task * state :=
  match tasks, i with
  | [], _ => ([], s)
  | t :: rest, O => let (t', s') := resume t s in (t' :: rest, s')
  | t :: rest, S j => let (rest', s') := resume_nth j rest s in (t :: rest', s')
  end.

Fixpoint event_loop (schedule : list nat) (tasks : list task) (s : state)
    : list task * state :=
  match schedule with
  | [] => (tasks, s)
  | i :: later =>
      let (tasks', s') := resume_nth i tasks s in
      event_loop later tasks' s'
  end.

End WithNetwork.

End Client.

(** ** core/error_handler.py: circuit_breaker

    The wrapper around a function [func] with its own state [F]. The two
    readings of [datetime.now()], at entry and in the exception handler, are
    given in microseconds. *)

Module Breaker.

Record state : Type := mk_state {
  failures : Z;
  last_failure : option Z;
  open : bool
}.

(** The dictionary the decorator starts with. *)
Definition initial : state := mk_state 0 None false.

(** [td.seconds] of a [timedelta] of [d] microseconds: the seconds field of
    the normalised (days, seconds, microseconds) triple. *)
Definition timedelta_dot_seconds (d : Z) : Z := (d / 1000000) mod 86400.

Section WithParameters.

Variable failure_threshold : Z.
Variable recovery_timeout : Z.

(** [func.__name__] *)
Variable func_name : string.

Context {F A : Type}.
Variable func : M F A.

Definition circuit_open_message : string :=
  "Circuit breaker is OPEN for " ++ func_name.

Definition wrapper (now_entry now_failure : Z) : M (state * F) A :=
  fun '(st, f) =>
    let gate :=
      if open st then
        match last_failure st with
        | None => inl (TypeError "unsupported operand type(s) for -")
        | Some t =>
            if timedelta_dot_seconds (now_entry - t) <? recovery_timeout
            then inl (Exception circuit_open_message)
            else inr (mk_state 0 (last_failure st) false)
        end
      else inr st in
    match gate with
    | inl e => (Raise e, (st, f))
    | inr st1 =>
        match func f with
        | (Return result, f') =>
            (Return result, (mk_state 0 (last_failure st1) (open st1), f'))
        | (Raise e, f') =>
            let n := failures st1 + 1 in
            (Raise e,
             (mk_state n (Some now_failure)
                       (if failure_threshold <=? n then true else open st1), f'))
        end
    end.

End WithParameters.

End Breaker.

(** ** Sample inputs *)

Module Samples.

Definition reply_401 : api_response := mk_api_response 401 "INVALID_TOKEN".
Definition reply_404 : api_response := mk_api_response 404 "Not Found".
Definition reply_200 : api_response := mk_api_response 200 "{}".

Definition token_reply (access : jfield string) (expires_in : option Z)
    : auth_response :=
  mk_auth_response 200 "ok" (Some (mk_token_data access None expires_in)).

Definition auth_refused : auth_response :=
  mk_auth_response 400 "invalid_client" None.

(** The API answers 401 to everything, the token endpoint refuses. *)
Definition net_401_refused : network :=
  mk_network (fun _ _ => inr auth_refused) (fun _ _ => inr reply_401).

(** The API answers 401 to everything, the token endpoint hands out
    [AT_NEW]. *)
Definition net_401_granted : network :=
  mk_network (fun _ _ => inr (token_reply (Value "AT_NEW") (Some 3600)))
             (fun _ _ => inr reply_401).

(** The API works, the token endpoint refuses. *)
Definition net_auth_refused : network :=
  mk_network (fun _ _ => inr auth_refused) (fun _ _ => inr reply_200).

(** The token endpoint answers 200 with a JSON body that has no
    [access_token] key. *)
Definition net_no_access_token : network :=
  mk_network (fun _ _ => inr (token_reply Missing None))
             (fun _ _ => inr reply_200).

(** The API answers 404 to everything. *)
Definition net_404 : network :=
  mk_network (fun _ _ => inr (token_reply (Value "AT_NEW") (Some 3600)))
             (fun _ _ => inr reply_404).

(** The token endpoint hands out a token with [expires_in = 0]. *)
Definition net_zero_expiry : network :=
  mk_network (fun _ _ => inr (token_reply (Value "AT_NEW") (Some 0)))
             (fun _ _ => inr reply_200).

(** The API refuses the token [AT_OLD] with 401 and accepts any other; the
    token endpoint hands out [AT_NEW] with an [expires_in] of minus 10^14
    seconds. *)
Definition net_negative_expiry : network :=
  mk_network
    (fun _ _ => inr (token_reply (Value "AT_NEW") (Some (-100000000000000))))
    (fun _ q =>
       if (req_authorization q =? "Zoho-oauthtoken AT_OLD")%string
       then inr reply_401 else inr reply_200).

Definition server_env : Server.environ :=
  Server.mk_environ (Some "1000.CLIENT") (Some "secret")
    "Generate-from-OAuth" "Generate-from-OAuth"
    "https://www.zohoapis.com/crm/v2".

(** A fresh process with no token file. *)
Definition server_fresh : Server.world :=
  Server.mk_world None None Server.FileAbsent true 1700000000 [].

(** A process holding tokens. *)
Definition server_running : Server.world :=
  Server.mk_world (Some "AT_OLD") (Some "RT_OLD")
    (Server.FileJson
       (Server.mk_token_doc (Some "AT_OLD") (Some "RT_OLD")
                            (Some 1699999000) (Some 3600)))
    true 1700000000 [].

Definition consolidated_running : Consolidated.state :=
  Consolidated.mk_state (Some "AT_OLD") (Some "RT_OLD")
    (Some 1700002300000000) Consolidated.FileAbsent true 1700000000.

Definition legacy_config : Legacy.config :=
  Legacy.mk_config (Some "RT") (Some "1000.CLIENT") (Some "secret")
    "https://www.zohoapis.com/crm/v2".


(** A client right after [__init__], at clock 0. *)
Definition client_fresh : Client.state :=
  Client.init (Some "1000.CLIENT") (Some "secret") (Some "RT") None 0.

(** A client holding a token that is good for another hour. *)
Definition client_running : Client.state :=
  Client.mk_state (Some "1000.CLIENT") (Some "secret") (Some "RT")
    (Some "AT_OLD") (Some 3600000000) 100 [] 0 [] [].


(** A wrapped function that counts its calls and always fails, and one that
    always succeeds. *)
Definition always_fails : M nat unit :=
  fun n => (Raise (Exception "boom"), Datatypes.S n).

Definition always_succeeds : M nat unit :=
  fun n => (Return tt, Datatypes.S n).

(** A breaker that opened at time 0 after five failures. *)
Definition breaker_open : Breaker.state := Breaker.mk_state 5 (Some 0) true.

End Samples.

(** ** server.py: tools built on the request wrapper *)

Module ServerTools.
Import Server.

Definition is_not_none {A} (o : option A) : bool :=
  match o with Some _ => true | None => false end.

(** The dictionary returned by [get_token_status]. *)
Record token_status : Type := mk_token_status {
  access_token_available : bool;
  access_token_preview : string;
  refresh_token_available : bool;
  refresh_token_preview : string;
  token_file_exists : bool;
  client_id : string;
  client_secret_set : bool;
  ready_for_api_calls : bool
}.

Definition get_token_status (env : environ) (w : world) : token_status :=
  mk_token_status
    (is_not_none (current_access_token w))
    (preview (current_access_token w))
    (is_not_none (current_refresh_token w))
    (preview (current_refresh_token w))
    (match TOKEN_FILE w with FileAbsent => false | _ => true end)
    (match ZOHO_CLIENT_ID env with
     | Some s => if (s =? "")%string then "Not set"
                 else substring 0 10 s ++ "..."
     | None => "Not set"
     end)
    (truthy (ZOHO_CLIENT_SECRET env))
    (is_not_none (current_access_token w)).

Definition ZOHO_MODULES : list string :=
  ["Leads"; "Accounts"; "Contacts"; "Deals"; "Events"; "Tasks"; "Calls";
   "users"].

(** An entry of the [errors] list of [get_module_data]. *)
Record module_error : Type := mk_module_error {
  err_module : string;
  err_code : Z;
  err_message : string
}.

(** The dictionaries returned by [get_module_data]; of the data of a module
    only the count is kept. *)
Inductive module_data_result : Type :=
| ModuleSuccess (module : string) (count : Z)
| ModuleError (module : string) (message : string) (code : Z)
| AllModules (modules_fetched : Z) (total_records : Z)
             (data : list (string * Z)) (errors : option (list module_error)).

Section WithEnvironment.

Variable env : environ.
Variable net : network.

(** [len(response.json().get("data", []))]; [None] when that raises. *)
Variable data_count : api_response -> option Z.

(** Whether [response.json()] gives a dictionary. *)
Variable json_is_dict : api_response -> bool.

(** The loop over [ZOHO_MODULES]. *)
Fixpoint fetch_modules (modules : list string) (all_data : list (string * Z))
    (errors : list module_error)
    : M (list (string * Z) * list module_error) :=
  match modules with
  | [] => ret (all_data, errors)
  | module :: rest =>
      response <- make_authenticated_request env net "GET"
                    (ZOHO_CRM_BASE_URL env ++ "/" ++ module) None ;;
      if status_code response =? 200 then
        match data_count response with
        | Some count => fetch_modules rest (all_data ++ [(module, count)]) errors
        | None => raise (Exception "Expecting value")
        end
      else
        fetch_modules rest all_data
          (errors ++ [mk_module_error module (status_code response)
                                      (text response)])
  end.

Definition get_module_data (module_name : option string)
    : M module_data_result :=
  match module_name with
  | Some name =>
      if (name =? "")%string then
        r <- fetch_modules ZOHO_MODULES [] [] ;;
        ret (AllModules (Z.of_nat (List.length (fst r)))
                        (fold_right Z.add 0 (map snd (fst r)))
                        (fst r)
                        (match snd r with [] => None | _ => Some (snd r) end))
      else
        response <- make_authenticated_request env net "GET"
                      (ZOHO_CRM_BASE_URL env ++ "/" ++ name) None ;;
        if status_code response =? 200 then
          match data_count response with
          | Some count => ret (ModuleSuccess name count)
          | None => raise (Exception "Expecting value")
          end
        else ret (ModuleError name (text response) (status_code response))
  | None =>
      r <- fetch_modules ZOHO_MODULES [] [] ;;
      ret (AllModules (Z.of_nat (List.length (fst r)))
                      (fold_right Z.add 0 (map snd (fst r)))
                      (fst r)
                      (match snd r with [] => None | _ => Some (snd r) end))
  end.

(** [params={"type": "current_user"}] is the query string of the request. *)
Definition test_zoho_connection : M tool_result :=
  try_except
    (ok <- ensure_valid_token env net ;;
     if negb ok then
       ret (ToolError "No valid tokens available. Cannot test connection." None)
     else
       response <- make_authenticated_request env net "GET"
                     (ZOHO_CRM_BASE_URL env ++ "/settings/users"
                        ++ "?type=current_user") None ;;
       if status_code response =? 200 then
         if json_is_dict response then
           ret (ToolSuccess "Successfully connected to Zoho CRM" None)
         else raise (Exception "'list' object has no attribute 'get'")
       else
         ret (ToolError ("Connection test failed: "
                           ++ str_of_int (status_code response) ++ " - "
                           ++ text response) None))
    (fun e => ret (ToolError ("Connection test error: " ++ exn_str e) None)).

End WithEnvironment.

End ServerTools.

(** ** core/error_handler.py: retry_with_backoff

    The wrapper around a function [func] with its own state [F]; the sleeps
    are collected, oldest first. [backoff_factor] is a number of time units;
    the product with a power of two is exact. [exceptions] tells whether an
    exception is an instance of one of the classes to retry on. *)

Module Retry.

Section WithParameters.

Variable max_retries : Z.
Variable backoff_factor : Z.
Variable exceptions : exn -> bool.
Context {F A : Type}.
Variable func : M F A.

(** The [for attempt in range(max_retries + 1)] loop with [remaining] turns
    to go, and the [raise last_exception] behind it. *)
Fixpoint attempts (remaining : nat) (attempt : Z) (last_exception : option exn)
    : M (F * list Z) A :=
  match remaining with
  | O =>
      match last_exception with
      | Some e => raise e
      | None => raise (TypeError "exceptions must derive from BaseException")
      end
  | S k =>
      fun '(f, sleeps) =>
        match func f with
        | (Return result, f') => (Return result, (f', sleeps))
        | (Raise e, f') =>
            if exceptions e then
              if attempt =? max_retries then (Raise e, (f', sleeps))
              else attempts k (attempt + 1) (Some e)
                     (f', (sleeps ++ [backoff_factor * 2 ^ attempt])%list)
            else (Raise e, (f', sleeps))
        end
  end.

Definition sync_wrapper : M (F * list Z) A :=
  attempts (Z.to_nat (max_retries + 1)) 0 None.

End WithParameters.

End Retry.

(** ** consolidated_zoho_mcp_server.py: get_valid_token and make_zoho_request

    The token store of [Consolidated] with the clock of [datetime.now()]
    and the network log. Transport errors are [aiohttp.ClientError];
    [asyncio.TimeoutError] is not modelled. *)

Module ConsolidatedApi.

Record config : Type := mk_config {
  cfg_client_id : option string;
  cfg_client_secret : option string;
  cfg_refresh_token : option string;
  cfg_crm_base_url : string
}.

(** The token store, the reading of [datetime.now()], the UTC offset of the
    process (both in microseconds) and the network log. *)
Record state : Type := mk_state {
  store : Consolidated.state;
  datetime_now : Z;
  utc_offset : Z;
  sent : list event
}.

Definition record_event (e : event) (s : state) : state :=
  mk_state (store s) (datetime_now s) (utc_offset s) (sent s ++ [e]).

Definition set_store (c : Consolidated.state) (s : state) : state :=
  mk_state c (datetime_now s) (utc_offset s) (sent s).

(** [_access_token = a] *)
Definition set_access (a : option string) (c : Consolidated.state)
    : Consolidated.state :=
  Consolidated.mk_state a (Consolidated._refresh_token c)
    (Consolidated._token_expires_at c)
    (Consolidated.TOKEN_FILE c) (Consolidated.file_writable c)
    (Consolidated.time_time c).

(** [_token_expires_at = t] *)
Definition set_expires_at (t : Z) (c : Consolidated.state)
    : Consolidated.state :=
  Consolidated.mk_state (Consolidated._access_token c)
    (Consolidated._refresh_token c) (Some t)
    (Consolidated.TOKEN_FILE c) (Consolidated.file_writable c)
    (Consolidated.time_time c).

(** [datetime.now() + timedelta(seconds=n)]: the sum is formed, and
    bounded, on the local calendar. *)
Definition local_datetime_after (s : state) (seconds : Z) : exn + Z :=
  match datetime_after (datetime_now s + utc_offset s) seconds with
  | inl e => inl e
  | inr t => inr (t - utc_offset s)
  end.

Section WithConfig.

Variable zoho_config : config.
Variable net : network.

(** [str(e)] *)
Variable str : exn -> string.

(** [await response.json()]: the result, or the exception it raises. *)
Variable response_json : api_response -> exn + string.

Definition session_post (f : auth_form) : M state auth_response :=
  fun s =>
    let s' := record_event (AuthPost f) s in
    match auth_endpoint net (sent s) f with
    | inl msg => (Raise (NetworkFailure msg), s')
    | inr r => (Return r, s')
    end.

Definition session_send (r : api_request) : M state api_response :=
  fun s =>
    let s' := record_event (ApiCall r) s in
    match api_endpoint net (sent s) r with
    | inl msg => (Raise (NetworkFailure msg), s')
    | inr resp => (Return resp, s')
    end.

Definition token_usable (s : state) : bool :=
  truthy (Consolidated._access_token (store s)) &&
  match Consolidated._token_expires_at (store s) with
  | Some t => datetime_now s <? t
  | None => false
  end.

Definition get_valid_token : M state (option string) :=
  s <- get ;;
  if token_usable s then ret (Consolidated._access_token (store s))
  else if negb (truthy (Consolidated._refresh_token (store s))) then
    raise (HTTPException 500 "No refresh token available")
  else
    try_except
      (response <- session_post
                     (RefreshGrant (Consolidated._refresh_token (store s))
                                   (cfg_client_id zoho_config)
                                   (cfg_client_secret zoho_config)) ;;
       if negb (auth_status response =? 200) then
         raise (HTTPException 500 "Failed to refresh Zoho access token")
       else
         match auth_json response with
         | None => raise (Exception "Attempt to decode JSON with unexpected mimetype")
         | Some token_data =>
             match td_access_token token_data with
             | Missing =>
                 raise (HTTPException 500 "Invalid token response from Zoho")
             | field =>
                 modify (fun s' =>
                   set_store (set_access (jget field) (store s')) s') ;;;
                 let expires_in := get_default (td_expires_in token_data) 3600 in
                 s' <- get ;;
                 match local_datetime_after s' (expires_in - 300) with
                 | inl e => raise e
                 | inr t =>
                     modify (fun s'' =>
                       set_store
                         (Consolidated.save_tokens (jget field) None
                            (Some expires_in)
                            (set_expires_at t (store s'')))
                         s'') ;;;
                     ret (jget field)
                 end
             end
         end)
      (fun e => raise (HTTPException 500 ("Token refresh error: " ++ str e))).

(** The [except] clauses of [make_zoho_request]. *)
Definition handle {A} (e : exn) : M state A :=
  match e with
  | HTTPException _ _ => raise e
  | NetworkFailure _ =>
      raise (HTTPException 500 ("Zoho API network error: " ++ str e))
  | _ => raise (HTTPException 500 ("Zoho API unexpected error: " ++ str e))
  end.

(** [files], when given, is a non-empty dictionary. The returned dictionary
    is represented by its [str()]. *)
Definition make_zoho_request (method : Legacy.http_method) (endpoint : string)
    (data files : option string) : M state string :=
  try_except
    (token <- get_valid_token ;;
     let authorization := "Zoho-oauthtoken " ++ py_str token in
     let url := cfg_crm_base_url zoho_config ++ endpoint in
     response <-
       match method with
       | Legacy.GET => session_send (mk_api_request "GET" url authorization None)
       | Legacy.POST =>
           match files with
           | Some f => session_send (mk_api_request "POST" url authorization files)
           | None => session_send (mk_api_request "POST" url authorization data)
           end
       | Legacy.PUT => session_send (mk_api_request "PUT" url authorization data)
       | Legacy.OtherMethod n =>
           raise (ValueError ("Unsupported HTTP method: " ++ n))
       end ;;
     match response_json response with
     | inl e => raise e
     | inr result =>
         if status_code response =? 401 then
           raise (HTTPException 401 "Zoho API authentication failed")
         else if status_code response =? 403 then
           raise (HTTPException 403 "Zoho API authorization failed")
         else if status_code response =? 429 then
           raise (HTTPException 429 "Zoho API rate limit exceeded")
         else if negb ((status_code response =? 200)
                       || (status_code response =? 201)) then
           raise (HTTPException 500
                    ("Zoho API error: " ++ str_of_int (status_code response)
                       ++ " - " ++ substring 0 200 result))
         else ret result
     end)
    handle.

(** [isinstance(e, (aiohttp.ClientError, asyncio.TimeoutError))] *)
Definition is_client_error (e : exn) : bool :=
  match e with NetworkFailure _ => true | _ => false end.

(** [make_zoho_request] as decorated:
    [@circuit_breaker(failure_threshold=5, recovery_timeout=60)] over
    [@retry_with_backoff(max_retries=3, exceptions=(aiohttp.ClientError,
    asyncio.TimeoutError))]. *)
Definition make_zoho_request_decorated (method : Legacy.http_method)
    (endpoint : string) (data files : option string)
    (now_entry now_failure : Z)
    : M (Breaker.state * (state * list Z)) string :=
  Breaker.wrapper 5 60 "make_zoho_request"
    (Retry.sync_wrapper 3 1 is_client_error
       (make_zoho_request method endpoint data files))
    now_entry now_failure.

End WithConfig.

End ConsolidatedApi.

(** ** More sample inputs *)

Module MoreSamples.

(** A network on which every token exchange and every API call fails in
    transport. *)
Definition net_down : network :=
  mk_network (fun _ _ => inl "Connection refused")
             (fun _ _ => inl "Connection refused").

(** The API answers 500 to everything. *)
Definition net_500 : network :=
  mk_network (fun _ _ => inr (Samples.token_reply (Value "AT_NEW") (Some 3600)))
             (fun _ _ => inr (mk_api_response 500 "Internal Server Error")).

(** The API answers 200. *)
Definition net_ok : network :=
  mk_network (fun _ _ => inr (Samples.token_reply (Value "AT_NEW") (Some 3600)))
             (fun _ _ => inr Samples.reply_200).

(** A function that fails with a transport error on its first [n] calls and
    then succeeds; its state is the number of calls made. *)
Definition flaky (n : nat) : M nat unit :=
  fun calls =>
    if (calls <? n)%nat then (Raise (NetworkFailure "reset"), Datatypes.S calls)
    else (Return tt, Datatypes.S calls).

Definition consolidated_config : ConsolidatedApi.config :=
  ConsolidatedApi.mk_config (Some "1000.CLIENT") (Some "secret") (Some "RT")
    "https://www.zohoapis.com/crm/v2".

(** A consolidated server process with a refresh token and no access
    token. *)
Definition consolidated_fresh : ConsolidatedApi.state :=
  ConsolidatedApi.mk_state
    (Consolidated.mk_state None (Some "RT") None Consolidated.FileAbsent true
                           1700000000)
    1700000000250000 7200000000 [].

Definition consolidated_with_token : ConsolidatedApi.state :=
  ConsolidatedApi.mk_state Samples.consolidated_running
    1700000000250000 7200000000 [].

(** A legacy process without token. *)
Definition legacy_fresh : Legacy.state :=
  Legacy.mk_state None None 1700000000000000 [].

(** A client with a limit of three requests per minute and an empty
    window. *)
Definition client_limit3 : Client.state :=
  Client.mk_state (Some "1000.CLIENT") (Some "secret") (Some "RT")
    (Some "AT_OLD") (Some 3600000000) 3 [] 0 [] [].

End MoreSamples.

(** ** Vocabulary of the statements *)

(** A computation that only ever adds to the network log, and one that
    raises nothing. [log] reads the log off the state. *)
Definition appending {S A} (log : S -> list event) (m : M S A) : Prop :=
  forall w, exists l, log (snd (m w)) = (log w ++ l)%list.

Definition returning {S A} (m : M S A) : Prop :=
  forall w, exists a, fst (m w) = Return a.



(** The token data of a reply the code takes for a grant: status 200 and a
    JSON body. *)
Definition granted (reply : string + auth_response) : option token_data :=
  match reply with
  | inl _ => None
  | inr response =>
      if auth_status response =? 200 then auth_json response else None
  end.

(** A computation whose network traffic is at most [n] posts to the token
    endpoint and no call of the API. *)
Definition token_traffic {S A} (log : S -> list event) (n : nat) (m : M S A)
    : Prop :=
  forall w, exists l,
    log (snd (m w)) = (log w ++ l)%list
    /\ api_calls l = 0%nat
    /\ (auth_posts l <= n)%nat.

(** The same process of server.py at another reading of the clock. *)
Definition server_at (t : Z) (w : Server.world) : Server.world :=
  Server.mk_world (Server.current_access_token w)
    (Server.current_refresh_token w) (Server.TOKEN_FILE w)
    (Server.file_writable w) t (Server.sent w).

(** A token file with its [created_at] replaced. *)
Definition stamped (t : Z) (f : Server.file_state) : Server.file_state :=
  match f with
  | Server.FileJson d =>
      Server.FileJson
        (Server.mk_token_doc (Server.doc_access_token d)
           (Server.doc_refresh_token d) (Some t) (Server.doc_expires_in d))
  | _ => f
  end.

(** The form the legacy server posts to the token endpoint. *)
Definition legacy_refresh_form (cfg : Legacy.config) : auth_form :=
  RefreshGrant (Legacy.cfg_refresh_token cfg) (Legacy.cfg_client_id cfg)
               (Legacy.cfg_client_secret cfg).


(** Calls through the circuit breaker at the given clock readings, one after
    the other, whatever each call gives. *)
Definition breaker_calls {F A} (failure_threshold recovery_timeout : Z)
    (func_name : string) (func : M F A) (times : list Z)
    (s : Breaker.state * F) : Breaker.state * F :=
  fold_left
    (fun s t =>
       snd (Breaker.wrapper failure_threshold recovery_timeout func_name func
              t t s))
    times s.

(** The sleeps of [retry_with_backoff] before attempts [1] to [k]. *)
Definition backoff_delays (backoff_factor first_attempt : Z) (k : nat)
    : list Z :=
  map (fun i => backoff_factor * 2 ^ (first_attempt + Z.of_nat i)) (seq 0 k).

(** The form the consolidated server posts to the token endpoint. *)
Definition consolidated_refresh_form (cfg : ConsolidatedApi.config)
    (s : ConsolidatedApi.state) : auth_form :=
  RefreshGrant (Consolidated._refresh_token (ConsolidatedApi.store s))
               (ConsolidatedApi.cfg_client_id cfg)
               (ConsolidatedApi.cfg_client_secret cfg).

(** The state of a function after [n] calls. *)
Definition after_calls {F A} (func : M F A) (n : nat) (f : F) : F :=
  Nat.iter n (fun f => snd (func f)) f.

(** * Properties *)

Lemma api_calls_app (l1 l2 : list event) :
  api_calls (l1 ++ l2)%list = (api_calls l1 + api_calls l2)%nat.
Proof. unfold api_calls. now rewrite filter_app, length_app. Qed.

Lemma auth_posts_app (l1 l2 : list event) :
  auth_posts (l1 ++ l2)%list = (auth_posts l1 + auth_posts l2)%nat.
Proof. unfold auth_posts. now rewrite filter_app, length_app. Qed.

(** When [now + timedelta(seconds=n)] has a value, it is the sum. *)
Lemma datetime_after_inr now n t :
  datetime_after now n = inr t -> t = now + n * 1000000.
Proof.
  unfold datetime_after, timedelta, datetime_add.
  destruct ((-999999999 <=? n / 86400) && (n / 86400 <=? 999999999)).
  - destruct ((datetime_min <=? now + n * 1000000)
              && (now + n * 1000000 <=? datetime_max)); congruence.
  - destruct ((-2147483648 <=? n / 86400) && (n / 86400 <=? 2147483647));
      discriminate.
Qed.

(** It has a value exactly when the interval has at most 999999999 days and
    the sum lies in the years 1 to 9999. *)
Lemma datetime_after_in_range now n :
  -999999999 <= n / 86400 <= 999999999 ->
  datetime_min <= now + n * 1000000 <= datetime_max ->
  datetime_after now n = inr (now + n * 1000000).
Proof.
  intros Hd Ht. unfold datetime_after, timedelta, datetime_add.
  replace ((-999999999 <=? n / 86400) && (n / 86400 <=? 999999999)) with true
    by (symmetry; apply andb_true_iff; split; apply Z.leb_le; lia).
  replace ((datetime_min <=? now + n * 1000000)
           && (now + n * 1000000 <=? datetime_max)) with true
    by (symmetry; apply andb_true_iff; split; apply Z.leb_le; lia).
  reflexivity.
Qed.

Lemma datetime_after_raises now n e :
  datetime_after now n = inl e -> exists msg, e = OverflowError msg.
Proof.
  unfold datetime_after, timedelta, datetime_add.
  destruct ((-999999999 <=? n / 86400) && (n / 86400 <=? 999999999)).
  - destruct ((datetime_min <=? now + n * 1000000)
              && (now + n * 1000000 <=? datetime_max));
      [discriminate | inversion 1; eauto].
  - destruct ((-2147483648 <=? n / 86400) && (n / 86400 <=? 2147483647));
      inversion 1; eauto.
Qed.

Section MonadFacts.

Context {S : Type}.
Variable log : S -> list event.

Lemma appending_ret {A} (a : A) : appending log (ret a).
Proof. intro w. exists []. cbn. now rewrite app_nil_r. Qed.

Lemma appending_raise {A} (e : exn) : appending log (@raise S A e).
Proof. intro w. exists []. cbn. now rewrite app_nil_r. Qed.

Lemma appending_get : appending log (@get S).
Proof. intro w. exists []. cbn. now rewrite app_nil_r. Qed.

Lemma appending_modify (f : S -> S) :
  (forall w, log (f w) = log w) -> appending log (modify f).
Proof. intros Hf w. exists []. cbn. now rewrite Hf, app_nil_r. Qed.

Lemma appending_bind {A B} (m : M S A) (k : A -> M S B) :
  appending log m -> (forall a, appending log (k a)) ->
  appending log (bind m k).
Proof.
  intros Hm Hk w. unfold bind.
  destruct (Hm w) as [l1 H1]. destruct (m w) as [[a | e] w1]; cbn in *.
  - destruct (Hk a w1) as [l2 H2]. exists (l1 ++ l2)%list.
    now rewrite H2, H1, app_assoc.
  - now exists l1.
Qed.

Lemma appending_try_except {A} (m : M S A) (h : exn -> M S A) :
  appending log m -> (forall e, appending log (h e)) ->
  appending log (try_except m h).
Proof.
  intros Hm Hh w. unfold try_except.
  destruct (Hm w) as [l1 H1]. destruct (m w) as [[a | e] w1]; cbn in *.
  - now exists l1.
  - destruct (Hh e w1) as [l2 H2]. exists (l1 ++ l2)%list.
    now rewrite H2, H1, app_assoc.
Qed.

Lemma appending_when (b : bool) (m : M S unit) :
  appending log m -> appending log (when b m).
Proof. destruct b; cbn; [easy | intros _; apply appending_ret]. Qed.

Lemma returning_ret {A} (a : A) : returning (@ret S A a).
Proof. intro w. now exists a. Qed.

Lemma returning_get : returning (@get S).
Proof. intro w. now exists w. Qed.

Lemma returning_modify (f : S -> S) : returning (modify f).
Proof. intro w. now exists tt. Qed.

Lemma returning_bind {A B} (m : M S A) (k : A -> M S B) :
  returning m -> (forall a, returning (k a)) -> returning (bind m k).
Proof.
  intros Hm Hk w. unfold bind.
  destruct (Hm w) as [a Ha]. destruct (m w) as [[a' | e] w1]; cbn in *.
  - apply Hk.
  - discriminate.
Qed.

Lemma returning_try_except {A} (m : M S A) (h : exn -> M S A) :
  (forall e, returning (h e)) -> returning (try_except m h).
Proof.
  intros Hh w. unfold try_except.
  destruct (m w) as [[a | e] w1]; cbn.
  - now exists a.
  - apply Hh.
Qed.

Lemma returning_when (b : bool) (m : M S unit) :
  returning m -> returning (when b m).
Proof. destruct b; cbn; [easy | intros _; apply returning_ret]. Qed.

End MonadFacts.

Create HintDb flow.

#[local] Hint Resolve appending_ret appending_raise appending_get appending_bind
  appending_try_except appending_when returning_ret returning_get
  returning_modify returning_bind returning_try_except returning_when : flow.

(** ** server.py *)

Module ServerFacts.
Import Server.

Section Facts.

Variable env : environ.
Variable net : network.

(** What [save_tokens] leaves behind. *)
Lemma save_tokens_run a r e w :
  save_tokens a r e w =
  (Return tt,
   let acc := if truthy a then a else current_access_token w in
   let ref := if truthy r then r else current_refresh_token w in
   mk_world acc ref
     (if file_writable w
      then FileJson (mk_token_doc acc ref (Some (time_time w))
                                  (Some (int_or e 3600)))
      else TOKEN_FILE w)
     (file_writable w) (time_time w) (sent w)).
Proof.
  destruct w as [ca cr tf fw tt0 sn].
  unfold save_tokens, write_file, when, bind, get, modify, ret,
    set_access, set_refresh, set_file; cbn.
  destruct (truthy a), (truthy r), fw; reflexivity.
Qed.

Lemma appending_save_tokens a r e : appending sent (save_tokens a r e).
Proof. intro w. exists []. rewrite save_tokens_run. cbn. now rewrite app_nil_r. Qed.

Lemma returning_save_tokens a r e : returning (save_tokens a r e).
Proof. intro w. exists tt. now rewrite save_tokens_run. Qed.

Lemma appending_requests_post f : appending sent (requests_post net f).
Proof.
  intro w. exists [AuthPost f]. unfold requests_post.
  destruct (auth_endpoint net (sent w) f); reflexivity.
Qed.

Lemma appending_requests_request r : appending sent (requests_request net r).
Proof.
  intro w. exists [ApiCall r]. unfold requests_request.
  destruct (api_endpoint net (sent w) r); reflexivity.
Qed.

Lemma appending_response_json r : appending sent (response_json r).
Proof. unfold response_json. destruct (auth_json r); auto with flow. Qed.

Lemma appending_load_tokens : appending sent (load_tokens env).
Proof.
  unfold load_tokens. apply appending_bind; [apply appending_get |].
  intros w. destruct (TOKEN_FILE w);
    repeat (apply appending_bind || apply appending_when
            || (apply appending_modify; intros []; reflexivity)
            || apply appending_get || apply appending_ret || intro).
Qed.

Lemma returning_load_tokens : returning (load_tokens env).
Proof.
  unfold load_tokens. apply returning_bind; [apply returning_get |].
  intros w. destruct (TOKEN_FILE w);
    repeat (apply returning_bind || apply returning_when
            || apply returning_modify
            || apply returning_get || apply returning_ret || intro).
Qed.

Lemma appending_refresh_access_token :
  appending sent (refresh_access_token env net).
Proof.
  unfold refresh_access_token. apply appending_bind; [apply appending_get |].
  intros w. destruct (negb (truthy (current_refresh_token w)));
    [apply appending_ret |].
  apply appending_try_except; [| intro; apply appending_ret].
  apply appending_bind; [apply appending_requests_post |].
  intros resp. destruct (auth_status resp =? 200); [| apply appending_ret].
  apply appending_bind; [apply appending_response_json |]. intros td.
  apply appending_bind; [apply appending_modify; intros []; reflexivity |].
  intros _. apply appending_bind; [apply appending_save_tokens |].
  intros _. apply appending_ret.
Qed.

Lemma returning_refresh_access_token :
  returning (refresh_access_token env net).
Proof.
  unfold refresh_access_token. apply returning_bind; [apply returning_get |].
  intros w. destruct (negb (truthy (current_refresh_token w)));
    [apply returning_ret |].
  apply returning_try_except. intro; apply returning_ret.
Qed.

Lemma appending_generate_oauth_tokens :
  appending sent (generate_oauth_tokens env net).
Proof.
  unfold generate_oauth_tokens.
  destruct (negb (truthy (ZOHO_CLIENT_ID env)) || negb (truthy (ZOHO_CLIENT_SECRET env)));
    [apply appending_ret |].
  apply appending_try_except; [| intro; apply appending_ret].
  apply appending_bind; [apply appending_requests_post |].
  intros resp. destruct (auth_status resp =? 200); [| apply appending_ret].
  apply appending_bind; [apply appending_response_json |]. intros td.
  apply appending_bind; [apply appending_save_tokens |].
  intros _. apply appending_ret.
Qed.

Lemma returning_generate_oauth_tokens :
  returning (generate_oauth_tokens env net).
Proof.
  unfold generate_oauth_tokens.
  destruct (negb (truthy (ZOHO_CLIENT_ID env)) || negb (truthy (ZOHO_CLIENT_SECRET env)));
    [apply returning_ret |].
  apply returning_try_except. intro; apply returning_ret.
Qed.

Lemma appending_ensure_valid_token :
  appending sent (ensure_valid_token env net).
Proof.
  unfold ensure_valid_token.
  apply appending_bind; [apply appending_get | intros w0].
  apply appending_bind.
  { apply appending_when, appending_bind;
      [apply appending_load_tokens | intro; apply appending_ret]. }
  intros _. apply appending_bind; [apply appending_get | intros w1].
  apply appending_bind.
  { destruct (truthy (current_refresh_token w1) && negb (truthy (current_access_token w1)));
      [| apply appending_ret].
    apply appending_bind;
      [apply appending_refresh_access_token | intro; apply appending_ret]. }
  intros [|]; [apply appending_ret |].
  apply appending_bind; [apply appending_get | intros w2].
  destruct (negb (truthy (current_access_token w2))); [| apply appending_ret].
  apply appending_bind;
    [apply appending_generate_oauth_tokens | intro; apply appending_ret].
Qed.

Lemma returning_ensure_valid_token :
  returning (ensure_valid_token env net).
Proof.
  unfold ensure_valid_token.
  apply returning_bind; [apply returning_get | intros w0].
  apply returning_bind.
  { apply returning_when, returning_bind;
      [apply returning_load_tokens | intro; apply returning_ret]. }
  intros _. apply returning_bind; [apply returning_get | intros w1].
  apply returning_bind.
  { destruct (truthy (current_refresh_token w1) && negb (truthy (current_access_token w1)));
      [| apply returning_ret].
    apply returning_bind;
      [apply returning_refresh_access_token | intro; apply returning_ret]. }
  intros [|]; [apply returning_ret |].
  apply returning_bind; [apply returning_get | intros w2].
  destruct (negb (truthy (current_access_token w2))); [| apply returning_ret].
  apply returning_bind;
    [apply returning_generate_oauth_tokens | intro; apply returning_ret].
Qed.

Lemma appending_get_auth_headers : appending sent (get_auth_headers env net).
Proof.
  unfold get_auth_headers.
  apply appending_bind; [apply appending_get | intros w].
  apply appending_bind.
  { apply appending_when, appending_bind;
      [apply appending_ensure_valid_token | intro; apply appending_ret]. }
  intros _. apply appending_bind; [apply appending_get | intro; apply appending_ret].
Qed.

Lemma returning_get_auth_headers : returning (get_auth_headers env net).
Proof.
  unfold get_auth_headers.
  apply returning_bind; [apply returning_get | intros w].
  apply returning_bind.
  { apply returning_when, returning_bind;
      [apply returning_ensure_valid_token | intro; apply returning_ret]. }
  intros _. apply returning_bind; [apply returning_get | intro; apply returning_ret].
Qed.

#[local] Arguments String.append : simpl never.
#[local] Arguments get_auth_headers : simpl never.
#[local] Arguments refresh_access_token : simpl never.
#[local] Arguments requests_request : simpl never.
#[local] Arguments make_authenticated_request : simpl never.

(** Whatever happens to the token, the request itself goes out. *)
Lemma make_authenticated_request_sends method url data w :
  exists authorization l1 l2,
    sent (snd (make_authenticated_request env net method url data w)) =
    (sent w ++ l1 ++ [ApiCall (mk_api_request method url authorization data)]
       ++ l2)%list.
Proof.
  unfold make_authenticated_request, bind.
  destruct (returning_get_auth_headers w) as [authorization Hret].
  destruct (appending_get_auth_headers w) as [l1 Hl1].
  destruct (get_auth_headers env net w) as [[a | e] w1]; cbn in Hret, Hl1;
    [| discriminate].
  exists a, l1.
  unfold requests_request at 1.
  destruct (api_endpoint net (sent w1) _) as [msg | response]; cbn.
  - exists []. cbn. rewrite Hl1, <- app_assoc. reflexivity.
  - destruct (status_code response =? 401).
    + destruct (returning_refresh_access_token
                  (record_event (ApiCall (mk_api_request method url a data)) w1))
        as [rr Hrr].
      destruct (appending_refresh_access_token
                  (record_event (ApiCall (mk_api_request method url a data)) w1))
        as [l2 Hl2].
      destruct (refresh_access_token env net _) as [[rr' | e] w2];
        cbn in Hrr, Hl2; [| discriminate].
      destruct (refresh_success rr').
      * destruct (returning_get_auth_headers w2) as [a2 Hret2].
        destruct (appending_get_auth_headers w2) as [l3 Hl3].
        destruct (get_auth_headers env net w2) as [[a2' | e] w3];
          cbn in Hret2, Hl3; [| discriminate].
        destruct (appending_requests_request
                    (mk_api_request method url a2' data) w3) as [l4 Hl4].
        exists (l2 ++ l3 ++ l4)%list. rewrite Hl4, Hl3, Hl2. cbn.
        rewrite Hl1, <- !app_assoc. reflexivity.
      * exists l2. cbn. rewrite Hl2. cbn. rewrite Hl1, <- !app_assoc.
        reflexivity.
    + exists []. cbn. rewrite Hl1, <- app_assoc. reflexivity.
Qed.

(** [refresh_access_token] case by case. *)
Lemma refresh_access_token_run w :
  refresh_access_token env net w =
  if negb (truthy (current_refresh_token w)) then
    (Return (RefreshError
               "No refresh token available. Need to complete OAuth setup first."),
     w)
  else
    let form := RefreshGrant (current_refresh_token w)
                             (ZOHO_CLIENT_ID env) (ZOHO_CLIENT_SECRET env) in
    let w1 := record_event (AuthPost form) w in
    match auth_endpoint net (sent w) form with
    | inl msg => (Return (RefreshError ("Token refresh error: " ++ msg)), w1)
    | inr response =>
        if auth_status response =? 200 then
          match auth_json response with
          | Some td =>
              (Return (RefreshSuccess (jget (td_access_token td))),
               snd (save_tokens (jget (td_access_token td)) None
                                (td_expires_in td)
                                (set_access (jget (td_access_token td)) w1)))
          | None =>
              (Return (RefreshError "Token refresh error: Expecting value"), w1)
          end
        else
          (Return (RefreshError ("Token refresh failed: " ++ auth_text response)),
           w1)
    end.
Proof.
  unfold refresh_access_token, bind at 1, get at 1.
  destruct (negb (truthy (current_refresh_token w))); [reflexivity |].
  unfold try_except, bind at 1, requests_post.
  destruct (auth_endpoint net (sent w) _) as [msg | response]; [reflexivity |].
  destruct (auth_status response =? 200); [| reflexivity].
  unfold response_json. destruct (auth_json response) as [td |]; [| reflexivity].
  unfold bind, ret, modify. rewrite save_tokens_run. reflexivity.
Qed.



End Facts.

(** C10. [bulk_create_records] with more than 100 records returns the error
    result and leaves everything as it was, so that no HTTP request at all
    is sent; with 100 records or fewer the [POST] of the payload to the
    module's URL is sent during the call. *)
Theorem bulk_create_records_limit env net json_get_data module_name
    records_data w :
  ((100 < List.length records_data)%nat ->
   bulk_create_records env net json_get_data module_name records_data w =
   (Return (ToolError "Maximum 100 records allowed per bulk operation" None), w))
  /\
  ((List.length records_data <= 100)%nat ->
   exists authorization l1 l2,
     sent (snd (bulk_create_records env net json_get_data module_name
                  records_data w)) =
     (sent w ++ l1
        ++ [ApiCall (mk_api_request "POST"
                       (ZOHO_CRM_BASE_URL env ++ "/" ++ module_name)
                       authorization
                       (Some (json_dumps_payload records_data)))]
        ++ l2)%list).
Proof.
  unfold bulk_create_records. split; intros Hlen.
  - replace (100 <? Z.of_nat (List.length records_data)) with true
      by (symmetry; apply Z.ltb_lt; lia).
    reflexivity.
  - replace (100 <? Z.of_nat (List.length records_data)) with false
      by (symmetry; apply Z.ltb_ge; lia).
    destruct (make_authenticated_request_sends env net "POST"
                (ZOHO_CRM_BASE_URL env ++ "/" ++ module_name)
                (Some (json_dumps_payload records_data)) w)
      as (authorization & l1 & l2 & Hsent).
    exists authorization, l1, l2. rewrite <- Hsent. unfold bind.
    destruct (make_authenticated_request env net _ _ _ w) as [[resp | e] w1];
      cbn; [| reflexivity].
    destruct (status_code resp =? 201); [| reflexivity].
    destruct (json_get_data resp); reflexivity.
Qed.

Lemma bulk_create_records_limit_witness :
  ((100 < List.length (repeat "{}" 101))%nat ->
   bulk_create_records Samples.server_env Samples.net_auth_refused
     (fun _ => None) "Leads" (repeat "{}" 101) Samples.server_running =
   (Return (ToolError "Maximum 100 records allowed per bulk operation" None),
    Samples.server_running))
  /\
  ((List.length ["{}"] <= 100)%nat ->
   exists authorization l1 l2,
     sent (snd (bulk_create_records Samples.server_env Samples.net_auth_refused
                  (fun _ => None) "Leads" ["{}"] Samples.server_running)) =
     (sent Samples.server_running ++ l1
        ++ [ApiCall (mk_api_request "POST"
                       (ZOHO_CRM_BASE_URL Samples.server_env ++ "/" ++ "Leads")
                       authorization
                       (Some (json_dumps_payload ["{}"])))]
        ++ l2)%list).
Proof.
  split.
  - exact (proj1 (bulk_create_records_limit Samples.server_env
                    Samples.net_auth_refused (fun _ => None) "Leads"
                    (repeat "{}" 101) Samples.server_running)).
  - exact (proj2 (bulk_create_records_limit Samples.server_env
                    Samples.net_auth_refused (fun _ => None) "Leads" ["{}"]
                    Samples.server_running)).
Defined.

(** C2 (defect of the code). A fresh process without token file and without
    tokens in the environment, whose client-credentials exchange is refused
    with status 400: [ensure_valid_token] answers [False], and
    [make_authenticated_request] goes on to send the request with the header
    [Zoho-oauthtoken None] and hands the reply back; the caller gets no
    failure signal. *)
Theorem request_sent_without_token :
  let run :=
    make_authenticated_request Samples.server_env Samples.net_auth_refused
      "GET" "https://www.zohoapis.com/crm/v2/Leads" None Samples.server_fresh in
  fst (ensure_valid_token Samples.server_env Samples.net_auth_refused
         Samples.server_fresh) = Return false
  /\ fst run = Return Samples.reply_200
  /\ current_access_token (snd run) = None
  /\ sent (snd run) =
     [AuthPost (ClientCredentialsGrant (Some "1000.CLIENT") (Some "secret")
                  "ZohoCRM.modules.ALL,ZohoCRM.settings.ALL,ZohoCRM.org.ALL");
      ApiCall (mk_api_request "GET" "https://www.zohoapis.com/crm/v2/Leads"
                 "Zoho-oauthtoken None" None)].
Proof. vm_compute. repeat split. Qed.

(** [set_refresh_token] case by case, for a non-empty new value: the new
    refresh token is stored and written with the access token held so far,
    then the outcome of the exchange decides. *)
Lemma set_refresh_token_run env net refresh_token w :
  truthy (Some refresh_token) = true ->
  let form := RefreshGrant (Some refresh_token)
                           (ZOHO_CLIENT_ID env) (ZOHO_CLIENT_SECRET env) in
  let w1 := snd (save_tokens None (Some refresh_token) None
                   (set_refresh (Some refresh_token) w)) in
  let run := set_refresh_token env net refresh_token w in
  match granted (auth_endpoint net (sent w) form) with
  | Some td =>
      run =
      (Return (ToolSuccess
                 "Refresh token set successfully and access token generated"
                 (Some (preview (jget (td_access_token td))))),
       snd (save_tokens (jget (td_access_token td)) None (td_expires_in td)
              (set_access (jget (td_access_token td))
                 (record_event (AuthPost form) w1))))
  | None =>
      exists error,
        run = (Return (ToolError error None), record_event (AuthPost form) w1)
  end.
Proof.
  intros Hrt form w1 run. subst run.
  assert (Hw1 : current_refresh_token w1 = Some refresh_token).
  { subst w1. rewrite save_tokens_run. cbn -[truthy]. now rewrite Hrt. }
  assert (Hs1 : sent w1 = sent w).
  { subst w1. now rewrite save_tokens_run. }
  assert (E : set_refresh_token env net refresh_token w =
              match refresh_access_token env net w1 with
              | (Return (RefreshSuccess _), w2) =>
                  (Return (ToolSuccess
                     "Refresh token set successfully and access token generated"
                     (Some (preview (current_access_token w2)))), w2)
              | (Return (RefreshError error), w2) =>
                  (Return (ToolError
                     ("Refresh token saved but failed to generate access token: "
                        ++ error) None), w2)
              | (Raise e, w2) =>
                  (Return (ToolError ("Failed to set refresh token: "
                                        ++ exn_str e) None), w2)
              end).
  { unfold set_refresh_token, try_except, bind, modify. subst w1.
    rewrite save_tokens_run. cbn [snd].
    destruct (refresh_access_token env net _) as [[[t | error] | e] w2];
      reflexivity. }
  rewrite E. clear E. rewrite refresh_access_token_run.
  rewrite Hw1, Hs1, Hrt. cbn [negb]. fold form. unfold granted.
  destruct (auth_endpoint net (sent w) form) as [msg | response];
    [eexists; reflexivity |].
  destruct (auth_status response =? 200); [| eexists; reflexivity].
  destruct (auth_json response) as [td |]; [| eexists; reflexivity].
  rewrite save_tokens_run. cbn.
  destruct (truthy (jget (td_access_token td))); reflexivity.
Qed.

(** Apart from a grant without access token, [set_refresh_token] ends in one
    of two states: new refresh token and new access token in memory and in
    the file, with a success result; or an error result with the access
    token as it was (the new refresh token is kept and written in both
    cases). *)
Lemma set_refresh_token_outcomes env net refresh_token w :
  truthy (Some refresh_token) = true ->
  file_writable w = true ->
  let form := RefreshGrant (Some refresh_token)
                           (ZOHO_CLIENT_ID env) (ZOHO_CLIENT_SECRET env) in
  let run := set_refresh_token env net refresh_token w in
  match granted (auth_endpoint net (sent w) form) with
  | Some td =>
      truthy (jget (td_access_token td)) = true ->
      (exists message p, fst run = Return (ToolSuccess message p))
      /\ current_access_token (snd run) = jget (td_access_token td)
      /\ current_refresh_token (snd run) = Some refresh_token
      /\ TOKEN_FILE (snd run) =
         FileJson (mk_token_doc (jget (td_access_token td))
                                (Some refresh_token) (Some (time_time w))
                                (Some (int_or (td_expires_in td) 3600)))
  | None =>
      (exists message, fst run = Return (ToolError message None))
      /\ current_access_token (snd run) = current_access_token w
      /\ current_refresh_token (snd run) = Some refresh_token
      /\ TOKEN_FILE (snd run) =
         FileJson (mk_token_doc (current_access_token w)
                                (Some refresh_token) (Some (time_time w))
                                (Some 3600))
  end.
Proof.
  intros Hrt Hfw form run.
  pose proof (set_refresh_token_run env net refresh_token w Hrt) as Hrun.
  cbv zeta in Hrun. fold form run in Hrun.
  destruct (granted (auth_endpoint net (sent w) form)) as [td |].
  - intros Hnew. rewrite Hrun. rewrite !save_tokens_run. cbn -[truthy].
    rewrite Hnew, Hrt, Hfw. cbn -[truthy]. rewrite ?Hnew. repeat split; eauto.
  - destruct Hrun as [error Hrun]. rewrite Hrun. rewrite save_tokens_run.
    cbn -[truthy]. rewrite Hrt, Hfw. cbn. repeat split; eauto.
Qed.

(** C6 (defect of the code). The token endpoint answers 200 with a JSON body
    that has no [access_token] key: [set_refresh_token] reports success,
    the access token held before is gone from memory, and the file holds
    the new refresh token next to a null access token. *)
Theorem set_refresh_token_half_updated :
  let run :=
    set_refresh_token Samples.server_env Samples.net_no_access_token "RT_NEW"
      Samples.server_running in
  current_access_token Samples.server_running = Some "AT_OLD"
  /\ fst run =
     Return (ToolSuccess
               "Refresh token set successfully and access token generated"
               (Some "None"))
  /\ current_access_token (snd run) = None
  /\ current_refresh_token (snd run) = Some "RT_NEW"
  /\ TOKEN_FILE (snd run) =
     FileJson (mk_token_doc None (Some "RT_NEW") (Some 1700000000) (Some 3600)).
Proof. vm_compute. repeat split. Qed.

End ServerFacts.

(** ** client.py *)

Module ClientFacts.
Import Client.

#[local] Arguments String.append : simpl never.



(** [_rate_limit_check] with the surviving timestamps named. *)
Lemma rate_limit_check_run s :
  let now := utcnow s in
  let kept := filter (fun ts => now - ts <? timedelta_minutes 1)
                     (request_timestamps s) in
  _rate_limit_check s =
  if max_requests_per_minute s <=? Z.of_nat (List.length kept) then
    match kept with
    | [] => (Raise IndexError, set_timestamps kept s)
    | ts0 :: _ =>
        let sleep_time := timedelta_seconds 60 - (now - ts0) in
        if 0 <? sleep_time then
          (Return tt,
           mk_state (client_id s) (client_secret s) (refresh_token s)
                    (access_token s) (token_expires_at s)
                    (max_requests_per_minute s) (kept ++ [now])
                    (now + sleep_time) (sent s) (slept s ++ [sleep_time]))
        else (Return tt, set_timestamps (kept ++ [now]) s)
    end
  else (Return tt, set_timestamps (kept ++ [now]) s).
Proof.
  intros now kept.
  unfold _rate_limit_check, bind, get, modify, when. cbv beta iota.
  fold now. fold kept.
  destruct (max_requests_per_minute s <=? Z.of_nat (List.length kept));
    [| reflexivity].
  destruct kept as [| ts0 rest]; [reflexivity |].
  destruct (0 <? timedelta_seconds 60 - (now - ts0)); reflexivity.
Qed.

(** With a positive limit the check raises nothing: a call is delayed at
    most, never turned away. *)
Lemma rate_limit_check_returns s :
  0 < max_requests_per_minute s ->
  fst (_rate_limit_check s) = Return tt.
Proof.
  intros Hmax. rewrite rate_limit_check_run. cbv zeta.
  destruct (max_requests_per_minute s <=? _) eqn:Hfull; [| reflexivity].
  destruct (filter _ (request_timestamps s)) as [| ts0 rest].
  - apply Z.leb_le in Hfull. change (Z.of_nat (List.length [])) with 0 in Hfull.
    lia.
  - destruct (0 <? _); reflexivity.
Qed.

(** Below the limit nothing is slept. *)
Lemma rate_limit_check_below_limit s :
  let kept := filter (fun ts => utcnow s - ts <? timedelta_minutes 1)
                     (request_timestamps s) in
  Z.of_nat (List.length kept) < max_requests_per_minute s ->
  _rate_limit_check s =
  (Return tt, set_timestamps (kept ++ [utcnow s]) s).
Proof.
  intros kept Hlt. rewrite rate_limit_check_run. cbv zeta. fold kept.
  replace (max_requests_per_minute s <=? _) with false
    by (symmetry; apply Z.leb_gt; exact Hlt).
  reflexivity.
Qed.



Section Facts.

Variable net : network.

(** What a grant leaves behind: the token is stored in any case, the
    expiry only when it can be computed. *)
Lemma on_post_reply_stores response td s :
  auth_status response = 200 ->
  auth_json response = Some td ->
  td_access_token td <> Missing ->
  on_post_reply (inr response) s =
  match datetime_after (utcnow s) (get_default (td_expires_in td) 3600 - 60) with
  | inl e =>
      (Raise e, set_token (jget (td_access_token td)) (token_expires_at s) s)
  | inr t => (Return tt, set_token (jget (td_access_token td)) (Some t) s)
  end.
Proof.
  intros Hst Hjs Hacc. unfold on_post_reply. rewrite Hst, Hjs.
  change (200 =? 200) with true. cbv iota.
  destruct (td_access_token td); [congruence | |];
    unfold bind, modify, get; cbn [utcnow set_token];
    destruct (datetime_after (utcnow s) _); reflexivity.
Qed.

(** Whatever the reply, only the token and its expiry can change. *)
Lemma on_post_reply_frame reply s :
  exists a e, snd (on_post_reply reply s) = set_token a e s.
Proof.
  assert (Hsame : s = set_token (access_token s) (token_expires_at s) s)
    by (destruct s; reflexivity).
  assert (Hraise : forall x : exn,
            exists a e, snd (@Raise unit x, s) = set_token a e s)
    by (intros x; exists (access_token s), (token_expires_at s); exact Hsame).
  destruct reply as [msg | response]; [apply Hraise |].
  destruct (auth_status response =? 200) eqn:Hst.
  - apply Z.eqb_eq in Hst.
    destruct (auth_json response) as [td |] eqn:Hjs.
    + destruct (td_access_token td) eqn:Hacc.
      * unfold on_post_reply.
        replace (auth_status response =? 200) with true
          by (symmetry; now apply Z.eqb_eq).
        rewrite Hjs, Hacc. apply Hraise.
      * rewrite (on_post_reply_stores response td s Hst Hjs)
          by (rewrite Hacc; discriminate).
        destruct (datetime_after _ _); eexists _, _; reflexivity.
      * rewrite (on_post_reply_stores response td s Hst Hjs)
          by (rewrite Hacc; discriminate).
        destruct (datetime_after _ _); eexists _, _; reflexivity.
    + unfold on_post_reply.
      replace (auth_status response =? 200) with true
        by (symmetry; now apply Z.eqb_eq).
      rewrite Hjs. apply Hraise.
  - unfold on_post_reply. rewrite Hst. apply Hraise.
Qed.

Lemma on_post_reply_keeps_log reply s :
  sent (snd (on_post_reply reply s)) = sent s.
Proof.
  destruct (on_post_reply_frame reply s) as (a & e & ->). reflexivity.
Qed.

(** A run of [_refresh_access_token] is one post to the token endpoint. *)
Lemma refresh_access_token_sends s :
  sent (snd (_refresh_access_token net s)) =
  (sent s ++ [AuthPost (refresh_form s)])%list.
Proof.
  unfold _refresh_access_token, post_sent. now rewrite on_post_reply_keeps_log.
Qed.

(** A reply with status 200 whose JSON body has the [access_token] key is
    stored, with the expiry 60 s before the announced one, when that expiry
    is a date. *)
Lemma on_post_reply_granted response td s t :
  auth_status response = 200 ->
  auth_json response = Some td ->
  td_access_token td <> Missing ->
  datetime_after (utcnow s) (get_default (td_expires_in td) 3600 - 60) = inr t ->
  on_post_reply (inr response) s =
  (Return tt, set_token (jget (td_access_token td)) (Some t) s)
  /\ t = utcnow s + timedelta_seconds (get_default (td_expires_in td) 3600 - 60).
Proof.
  intros Hst Hjs Hacc Ht.
  rewrite (on_post_reply_stores response td s Hst Hjs Hacc), Ht.
  split; [reflexivity |]. now apply datetime_after_inr.
Qed.

Lemma ensure_valid_token_stale s :
  token_stale s = true ->
  _ensure_valid_token net s = _refresh_access_token net s.
Proof.
  intros H. unfold _ensure_valid_token, bind, get. now rewrite H.
Qed.

Lemma ensure_valid_token_fresh s :
  token_stale s = false ->
  _ensure_valid_token net s = (Return tt, s).
Proof.
  intros H. unfold _ensure_valid_token, bind, get. now rewrite H.
Qed.

(** A token announced with at most 60 s to live, and stored with its
    expiry, is stale from the moment it is stored. *)
Lemma short_lived_token_is_stale response td e t s s2 :
  auth_endpoint net (sent s) (refresh_form s) = inr response ->
  auth_status response = 200 ->
  auth_json response = Some td ->
  td_access_token td <> Missing ->
  td_expires_in td = Some e ->
  e <= 60 ->
  datetime_after (utcnow s) (e - 60) = inr t ->
  let s1 := snd (_refresh_access_token net s) in
  access_token s2 = access_token s1 ->
  token_expires_at s2 = token_expires_at s1 ->
  utcnow s1 <= utcnow s2 ->
  token_stale s2 = true.
Proof.
  intros Hreply Hst Hjs Hacc Hexp He Hdate s1 Ha Ht Hclock.
  subst s1. unfold _refresh_access_token, post_sent in *.
  rewrite Hreply in *.
  assert (Hdate' :
    datetime_after (utcnow (record_event (AuthPost (refresh_form s)) s))
      (get_default (td_expires_in td) 3600 - 60) = inr t)
    by (rewrite Hexp; exact Hdate).
  destruct (on_post_reply_granted response td _ t Hst Hjs Hacc Hdate')
    as [Hrun Hsum].
  rewrite Hrun in *.
  rewrite Hexp in *. cbn [snd set_token token_expires_at access_token utcnow
                            record_event get_default] in Ha, Ht, Hclock, Hsum.
  unfold token_stale. rewrite Ha, Ht.
  destruct (jget (td_access_token td)); [| reflexivity].
  apply Z.leb_le. unfold timedelta_seconds in Hsum. lia.
Qed.

End Facts.

(** C5 (defect of the code). A client holds [AT_OLD], good for another
    hour, which the API refuses with 401. The token endpoint answers the
    forced refresh with [AT_NEW] and an [expires_in] of minus 10^14 seconds.
    [_refresh_access_token] stores [AT_NEW] and then fails on the expiry,
    which stays that of [AT_OLD]; the call ends with [OverflowError]. The
    next call finds the token not expired, posts nothing to the token
    endpoint and sends [AT_NEW] to the API. *)
Theorem negative_expiry_served_as_valid :
  let url := "https://www.zohoapis.com/crm/v3/Leads" in
  let s := Samples.client_running in
  let run1 := _make_request Samples.net_negative_expiry "GET" url None s in
  let s1 := snd run1 in
  let run2 := _make_request Samples.net_negative_expiry "GET" url None s1 in
  token_stale s = false
  /\ (exists msg, fst run1 = Raise (OverflowError msg))
  /\ access_token s1 = Some "AT_NEW"
  /\ token_expires_at s1 = token_expires_at s
  /\ utcnow s <= utcnow s1
  /\ token_stale s1 = false
  /\ fst run2 = Return (Some "{}")
  /\ sent (snd run2) =
     (sent s1
        ++ [ApiCall (mk_api_request "GET" url "Zoho-oauthtoken AT_NEW" None)])%list.
Proof.
  vm_compute. repeat split; try discriminate.
  eexists. reflexivity.
Qed.

(** X23. After a token exchange that answered with [expires_in <= 0] and
    whose expiry could be computed, at any later reading of the clock the token
    counts as expired, and the next [_ensure_valid_token] posts a new
    refresh exchange before anything else. *)
Theorem nonpositive_expiry_forces_refresh net s response td e t :
  auth_endpoint net (sent s) (refresh_form s) = inr response ->
  auth_status response = 200 ->
  auth_json response = Some td ->
  td_access_token td <> Missing ->
  td_expires_in td = Some e ->
  e <= 0 ->
  datetime_after (utcnow s) (e - 60) = inr t ->
  let s1 := snd (_refresh_access_token net s) in
  fst (_refresh_access_token net s) = Return tt
  /\ forall s2,
       access_token s2 = access_token s1 ->
       token_expires_at s2 = token_expires_at s1 ->
       utcnow s1 <= utcnow s2 ->
       token_stale s2 = true
       /\ sent (snd (_ensure_valid_token net s2)) =
          (sent s2 ++ [AuthPost (refresh_form s2)])%list.
Proof.
  intros Hreply Hst Hjs Hacc Hexp He Hdate s1. split.
  - unfold _refresh_access_token, post_sent. rewrite Hreply.
    rewrite (on_post_reply_stores response td _ Hst Hjs Hacc), Hexp.
    cbn [utcnow record_event get_default]. now rewrite Hdate.
  - intros s2 Ha Ht Hclock.
    assert (Hstale : token_stale s2 = true).
    { apply (short_lived_token_is_stale net response td e t s s2); auto. lia. }
    split; [exact Hstale |].
    rewrite (ensure_valid_token_stale net s2 Hstale).
    apply refresh_access_token_sends.
Qed.

Lemma nonpositive_expiry_forces_refresh_witness :
  let s1 := snd (_refresh_access_token Samples.net_zero_expiry
                   Samples.client_fresh) in
  fst (_refresh_access_token Samples.net_zero_expiry Samples.client_fresh)
  = Return tt
  /\ forall s2,
       access_token s2 = access_token s1 ->
       token_expires_at s2 = token_expires_at s1 ->
       utcnow s1 <= utcnow s2 ->
       token_stale s2 = true
       /\ sent (snd (_ensure_valid_token Samples.net_zero_expiry s2)) =
          (sent s2 ++ [AuthPost (refresh_form s2)])%list.
Proof.
  apply (nonpositive_expiry_forces_refresh Samples.net_zero_expiry
           Samples.client_fresh
           (Samples.token_reply (Value "AT_NEW") (Some 0))
           (mk_token_data (Value "AT_NEW") None (Some 0)) 0 (-60000000));
    try reflexivity; try discriminate; lia.
Defined.

Section LoopFacts.

Variable net : network.

(** One turn of the loop of [_make_request]. *)
Lemma request_loop_turn k attempt method url data authorization s :
  request_loop net (S k) attempt method url data authorization s =
  match attempt_body net method url data authorization s with
  | (Return (Returned v), s1) => (Return (Some v), s1)
  | (Return (Continue authorization'), s1) =>
      request_loop net k (attempt + 1) method url data authorization' s1
  | (Raise e, s1) =>
      if attempt =? 2 then (Raise e, s1)
      else request_loop net k (attempt + 1) method url data authorization
             (snd (asyncio_sleep (timedelta_seconds (2 ^ attempt)) s1))
  end.
Proof.
  cbn [request_loop]. unfold bind at 1, try_except, bind at 1.
  destruct (attempt_body net method url data authorization s)
    as [[[a | v] | e] s1]; try reflexivity.
  destruct (attempt =? 2); reflexivity.
Qed.




(** With a usable token and room in the rate window, [_make_request] records
    the call and enters the loop with the token it holds. *)
Lemma make_request_enters_loop method url data s :
  let kept := filter (fun ts => utcnow s - ts <? timedelta_minutes 1)
                     (request_timestamps s) in
  token_stale s = false ->
  Z.of_nat (List.length kept) < max_requests_per_minute s ->
  _make_request net method url data s =
  request_loop net 3 0 method url data (authorization_of s)
    (set_timestamps (kept ++ [utcnow s]) s).
Proof.
  intros kept Hfresh Hroom. unfold _make_request, bind.
  rewrite (ensure_valid_token_fresh net s Hfresh).
  rewrite (rate_limit_check_below_limit s Hroom). reflexivity.
Qed.

Section Answered401.

Variables (method url : string) (data : option string).
Variables (r : api_response) (response : auth_response) (td : token_data).

Hypothesis api_401 : forall l q, api_endpoint net l q = inr r.
Hypothesis status_401 : status_code r = 401.
Hypothesis auth_granted : forall l f, auth_endpoint net l f = inr response.
Hypothesis auth_200 : auth_status response = 200.
Hypothesis auth_body : auth_json response = Some td.
Hypothesis auth_token : td_access_token td <> Missing.






End Answered401.

(** client.py with a stale token and a token endpoint that refuses: the
    call raises the refresh error and no request goes to the API. *)
Lemma make_request_refresh_refused method url data s response :
  token_stale s = true ->
  auth_endpoint net (sent s) (refresh_form s) = inr response ->
  auth_status response <> 200 ->
  _make_request net method url data s =
  (Raise (Exception ("Token refresh failed: " ++ auth_text response)),
   record_event (AuthPost (refresh_form s)) s).
Proof.
  intros Hstale Hreply Hst. unfold _make_request, bind at 1.
  rewrite (ensure_valid_token_stale net s Hstale).
  unfold _refresh_access_token, post_sent. rewrite Hreply.
  unfold on_post_reply.
  replace (auth_status response =? 200) with false
    by (symmetry; apply Z.eqb_neq; exact Hst).
  reflexivity.
Qed.

End LoopFacts.

(** The network of the samples answers 401 three times in a row: three
    requests and three refresh exchanges go out, and [_make_request] returns
    [None]. *)
Lemma make_request_three_401 :
  let run := _make_request Samples.net_401_granted "GET"
               "https://www.zohoapis.com/crm/v3/Leads" None
               Samples.client_running in
  fst run = Return None
  /\ api_calls (sent (snd run)) = 3%nat
  /\ auth_posts (sent (snd run)) = 3%nat.
Proof. vm_compute. repeat split. Qed.

Section EventLoopFacts.

Variable net : network.

Lemma resume_nth_at done t rest s :
  resume_nth net (List.length done) (done ++ t :: rest) s =
  let (t', s') := resume net t s in ((done ++ t' :: rest)%list, s').
Proof.
  induction done as [| d done IH]; cbn [List.length app resume_nth].
  - destruct (resume net t s); reflexivity.
  - rewrite IH. destruct (resume net t s); reflexivity.
Qed.

(** A coroutine that finds the token stale puts its own exchange on the
    wire and is suspended; nothing it did tells the next one to wait. *)
Lemma resume_created_stale s :
  token_stale s = true ->
  resume net Created s =
  (AwaitingReply (auth_endpoint net (sent s) (refresh_form s)),
   record_event (AuthPost (refresh_form s)) s).
Proof. intros H. unfold resume. now rewrite H. Qed.

Lemma resume_created_fresh s :
  token_stale s = false ->
  resume net Created s = (Finished (Return tt), s).
Proof. intros H. unfold resume. now rewrite H. Qed.

Lemma sent_after_posts e n s :
  sent (Nat.iter n (record_event e) s) = (sent s ++ repeat e n)%list.
Proof.
  induction n as [| n IH]; cbn [Nat.iter nat_rect repeat].
  - now rewrite app_nil_r.
  - unfold Nat.iter in IH. cbn [record_event sent]. rewrite IH.
    rewrite <- app_assoc. f_equal. symmetry. apply repeat_cons.
Qed.

Lemma event_loop_starts n :
  forall done s,
    token_stale s = true ->
    exists replies,
      List.length replies = n
      /\ event_loop net (seq (List.length done) n) (done ++ repeat Created n) s
         = ((done ++ map AwaitingReply replies)%list,
            Nat.iter n (record_event (AuthPost (refresh_form s))) s).
Proof.
  induction n as [| n IH]; intros done s Hstale.
  - exists []. split; reflexivity.
  - cbn [seq repeat event_loop]. rewrite resume_nth_at.
    rewrite (resume_created_stale s Hstale).
    set (reply := auth_endpoint net (sent s) (refresh_form s)).
    set (s1 := record_event (AuthPost (refresh_form s)) s).
    destruct (IH (done ++ [AwaitingReply reply])%list s1 Hstale)
      as (replies & Hlen & Hrun).
    rewrite length_app, Nat.add_1_r, <- app_assoc in Hrun.
    exists (reply :: replies). split; [cbn; now rewrite Hlen |].
    cbn [app] in Hrun. rewrite Hrun. rewrite <- app_assoc. cbn [app map].
    f_equal. change (refresh_form s1) with (refresh_form s).
    subst s1. symmetry. apply Nat.iter_succ_r.
Qed.

End EventLoopFacts.

(** C3. There is no lock around the refresh: when [n] coroutines call
    [_ensure_valid_token] on a stale token and each is run up to its
    suspension before any reply is processed, [n] refresh exchanges are
    sent, and each coroutine waits for the reply to its own exchange. Only a
    coroutine that starts when a stored token is not yet expired returns at
    once without an exchange. *)
Theorem concurrent_callers_each_refresh net n s :
  token_stale s = true ->
  let run := event_loop net (seq 0 n) (repeat Created n) s in
  sent (snd run) = (sent s ++ repeat (AuthPost (refresh_form s)) n)%list
  /\ auth_posts (sent (snd run)) = (auth_posts (sent s) + n)%nat
  /\ (exists replies,
        List.length replies = n /\ fst run = map AwaitingReply replies)
  /\ (forall s', token_stale s' = false ->
                 resume net Created s' = (Finished (Return tt), s')).
Proof.
  intros Hstale run.
  destruct (event_loop_starts net n [] s Hstale) as (replies & Hlen & Hrun).
  cbn [List.length app] in Hrun. subst run. rewrite Hrun. cbn [fst snd].
  rewrite sent_after_posts. repeat split.
  - rewrite auth_posts_app. f_equal. clear.
    induction n as [| n IH]; [reflexivity |].
    cbn [repeat]. unfold auth_posts in *. cbn. now rewrite IH.
  - now exists replies.
  - apply resume_created_fresh.
Qed.

Lemma concurrent_callers_each_refresh_witness :
  let run := event_loop Samples.net_401_granted (seq 0 3) (repeat Created 3)
               Samples.client_fresh in
  sent (snd run) =
    (sent Samples.client_fresh
       ++ repeat (AuthPost (refresh_form Samples.client_fresh)) 3)%list
  /\ auth_posts (sent (snd run)) =
     (auth_posts (sent Samples.client_fresh) + 3)%nat
  /\ (exists replies,
        List.length replies = 3%nat /\ fst run = map AwaitingReply replies)
  /\ (forall s', token_stale s' = false ->
                 resume Samples.net_401_granted Created s'
                 = (Finished (Return tt), s')).
Proof.
  apply (concurrent_callers_each_refresh Samples.net_401_granted 3
           Samples.client_fresh).
  reflexivity.
Defined.

(** Two coroutines on a client without token, both run to their suspension
    and then both resumed with their replies: two refresh exchanges are
    sent, not one, and both coroutines end normally. *)
Lemma two_callers_two_exchanges :
  let run := event_loop Samples.net_401_granted [0; 1; 0; 1]%nat
               [Created; Created] Samples.client_fresh in
  token_stale Samples.client_fresh = true
  /\ fst run = [Finished (Return tt); Finished (Return tt)]
  /\ ~ (auth_posts (sent (snd run)) <= 1)%nat.
Proof.
  vm_compute. repeat split. lia.
Qed.

End ClientFacts.

(** ** legacy_zoho_mcp/zoho_mcp_server.py *)

Module LegacyFacts.
Import Legacy.

#[local] Arguments String.append : simpl never.


End LegacyFacts.

(** ** The token store *)

Module StoreFacts.



(** An [expires_in] of 0 is written as 3600: the token that was announced
    as expired comes back from the file as good for 55 more minutes. *)
Lemma zero_expiry_saved_as_3600 cfg a r s :
  Consolidated.file_writable s = true ->
  let s2 := snd (Consolidated.load_tokens cfg
                   (Consolidated.restart
                      (Consolidated.save_tokens a r (Some 0) s))) in
  Consolidated._token_expires_at s2
  = Some ((Consolidated.time_time s + 3600 - 300) * 1000000).
Proof.
  intros Hfw s2. subst s2.
  unfold Consolidated.load_tokens, Consolidated.restart,
    Consolidated.save_tokens.
  cbn [Consolidated.TOKEN_FILE Consolidated.file_writable
       Consolidated.time_time]. rewrite Hfw. reflexivity.
Qed.


End StoreFacts.

(** ** error_handler.py: circuit_breaker *)

Module BreakerFacts.
Import Breaker.





(** [.seconds] is the seconds field, not the length of the interval: one day
    and ten seconds after the last failure the circuit still refuses the
    call, without calling the function. *)
Lemma circuit_refuses_after_a_day :
  wrapper 5 60 "always_succeeds" Samples.always_succeeds 86410000000 86410000000
          (Samples.breaker_open, 0%nat)
  = (Raise (Exception (circuit_open_message "always_succeeds")),
     (Samples.breaker_open, 0%nat)).
Proof. vm_compute. reflexivity. Qed.

End BreakerFacts.

(** ** Retry on 401 and on error replies, across the implementations *)









(** * Further properties of the code around the claims *)

Section TrafficFacts.

Context {S : Type}.
Variable log : S -> list event.

Lemma traffic_weaken {A} (n k : nat) (m : M S A) :
  (n <= k)%nat -> token_traffic log n m -> token_traffic log k m.
Proof.
  intros Hnk Hm w. destruct (Hm w) as (l & Hl & Ha & Hp).
  exists l. repeat split; [assumption | assumption | lia].
Qed.

Lemma traffic_ret {A} (a : A) : token_traffic log 0 (ret a).
Proof. intro w. exists []. cbn. rewrite app_nil_r. repeat split; lia. Qed.

Lemma traffic_raise {A} (e : exn) : token_traffic log 0 (@raise S A e).
Proof. intro w. exists []. cbn. rewrite app_nil_r. repeat split; lia. Qed.

Lemma traffic_get : token_traffic log 0 (@get S).
Proof. intro w. exists []. cbn. rewrite app_nil_r. repeat split; lia. Qed.

Lemma traffic_modify (f : S -> S) :
  (forall w, log (f w) = log w) -> token_traffic log 0 (modify f).
Proof.
  intros Hf w. exists []. cbn. rewrite Hf, app_nil_r. repeat split; lia.
Qed.

Lemma traffic_bind {A B} (n k : nat) (m : M S A) (f : A -> M S B) :
  token_traffic log n m -> (forall a, token_traffic log k (f a)) ->
  token_traffic log (n + k) (bind m f).
Proof.
  intros Hm Hf w. unfold bind.
  destruct (Hm w) as (l1 & H1 & Ha1 & Hp1).
  destruct (m w) as [[a | e] w1]; cbn [snd] in *.
  - destruct (Hf a w1) as (l2 & H2 & Ha2 & Hp2). exists (l1 ++ l2)%list.
    rewrite H2, H1, app_assoc, api_calls_app, auth_posts_app.
    repeat split; lia.
  - exists l1. repeat split; [assumption | assumption | lia].
Qed.

Lemma traffic_try_except {A} (n k : nat) (m : M S A) (h : exn -> M S A) :
  token_traffic log n m -> (forall e, token_traffic log k (h e)) ->
  token_traffic log (n + k) (try_except m h).
Proof.
  intros Hm Hh w. unfold try_except.
  destruct (Hm w) as (l1 & H1 & Ha1 & Hp1).
  destruct (m w) as [[a | e] w1]; cbn [snd] in *.
  - exists l1. repeat split; [assumption | assumption | lia].
  - destruct (Hh e w1) as (l2 & H2 & Ha2 & Hp2). exists (l1 ++ l2)%list.
    rewrite H2, H1, app_assoc, api_calls_app, auth_posts_app.
    repeat split; lia.
Qed.

Lemma traffic_when (n : nat) (b : bool) (m : M S unit) :
  token_traffic log n m -> token_traffic log n (when b m).
Proof.
  destruct b; cbn; [easy |]. intros _.
  apply (traffic_weaken 0 n); [lia | apply traffic_ret].
Qed.

End TrafficFacts.

(** ** server.py: token acquisition and the tools *)

Module ServerMore.
Import Server.

#[local] Arguments String.append : simpl never.

Section Facts.

Variable env : environ.
Variable net : network.

Lemma traffic_requests_post f : token_traffic sent 1 (requests_post net f).
Proof.
  intro w. exists [AuthPost f]. unfold requests_post.
  destruct (auth_endpoint net (sent w) f); cbn; repeat split; lia.
Qed.

Lemma traffic_save_tokens a r e : token_traffic sent 0 (save_tokens a r e).
Proof.
  intro w. exists []. rewrite ServerFacts.save_tokens_run. cbn.
  rewrite app_nil_r. repeat split; lia.
Qed.

Lemma traffic_load_tokens : token_traffic sent 0 (load_tokens env).
Proof.
  intro w. exists []. rewrite app_nil_r.
  unfold load_tokens, bind, get, modify, when, ret.
  destruct (TOKEN_FILE w);
    try destruct (negb (ZOHO_ACCESS_TOKEN env =? sentinel)%string);
    try destruct (negb (ZOHO_REFRESH_TOKEN env =? sentinel)%string);
    cbn; repeat split; lia.
Qed.

Lemma traffic_refresh_access_token :
  token_traffic sent 1 (refresh_access_token env net).
Proof.
  intro w. rewrite ServerFacts.refresh_access_token_run.
  destruct (negb (truthy (current_refresh_token w))).
  { exists []. cbn. rewrite app_nil_r. repeat split; lia. }
  cbv zeta.
  exists [AuthPost (RefreshGrant (current_refresh_token w)
                      (ZOHO_CLIENT_ID env) (ZOHO_CLIENT_SECRET env))].
  destruct (auth_endpoint net (sent w) _) as [msg | response];
    [cbn; repeat split; lia |].
  destruct (auth_status response =? 200); [| cbn; repeat split; lia].
  destruct (auth_json response) as [td |]; [| cbn; repeat split; lia].
  rewrite ServerFacts.save_tokens_run. cbn. repeat split; lia.
Qed.

(** [generate_oauth_tokens] case by case. *)
Lemma generate_oauth_tokens_run w :
  generate_oauth_tokens env net w =
  if negb (truthy (ZOHO_CLIENT_ID env)) || negb (truthy (ZOHO_CLIENT_SECRET env))
  then (Return (OAuthError "Missing client credentials" false), w)
  else
    let form := ClientCredentialsGrant (ZOHO_CLIENT_ID env)
                  (ZOHO_CLIENT_SECRET env)
                  "ZohoCRM.modules.ALL,ZohoCRM.settings.ALL,ZohoCRM.org.ALL" in
    let w1 := record_event (AuthPost form) w in
    match auth_endpoint net (sent w) form with
    | inl msg =>
        (Return (OAuthError ("OAuth generation error: " ++ msg) false), w1)
    | inr response =>
        if auth_status response =? 200 then
          match auth_json response with
          | Some td =>
              let expires_in := get_default (td_expires_in td) 3600 in
              (Return (OAuthSuccess (jget (td_access_token td))
                                    (td_refresh_token td) expires_in),
               snd (save_tokens (jget (td_access_token td))
                                (td_refresh_token td) (Some expires_in) w1))
          | None =>
              (Return (OAuthError "OAuth generation error: Expecting value"
                                  false), w1)
          end
        else
          (Return (OAuthError ("OAuth token generation failed: "
                                 ++ auth_text response) true), w1)
    end.
Proof.
  unfold generate_oauth_tokens.
  destruct (negb (truthy (ZOHO_CLIENT_ID env))
            || negb (truthy (ZOHO_CLIENT_SECRET env))); [reflexivity |].
  unfold try_except, bind at 1, requests_post.
  destruct (auth_endpoint net (sent w) _) as [msg | response]; [reflexivity |].
  destruct (auth_status response =? 200); [| reflexivity].
  unfold response_json. destruct (auth_json response) as [td |]; [| reflexivity].
  unfold bind, ret. rewrite ServerFacts.save_tokens_run. reflexivity.
Qed.

Lemma traffic_generate_oauth_tokens :
  token_traffic sent 1 (generate_oauth_tokens env net).
Proof.
  intro w. rewrite generate_oauth_tokens_run.
  destruct (negb (truthy (ZOHO_CLIENT_ID env))
            || negb (truthy (ZOHO_CLIENT_SECRET env))).
  { exists []. cbn. rewrite app_nil_r. repeat split; lia. }
  cbv zeta.
  exists [AuthPost (ClientCredentialsGrant (ZOHO_CLIENT_ID env)
                      (ZOHO_CLIENT_SECRET env)
                      "ZohoCRM.modules.ALL,ZohoCRM.settings.ALL,ZohoCRM.org.ALL")].
  destruct (auth_endpoint net (sent w) _) as [msg | response];
    [cbn; repeat split; lia |].
  destruct (auth_status response =? 200); [| cbn; repeat split; lia].
  destruct (auth_json response) as [td |]; [| cbn; repeat split; lia].
  rewrite ServerFacts.save_tokens_run. cbn. repeat split; lia.
Qed.

Lemma traffic_ensure_valid_token :
  token_traffic sent 2 (ensure_valid_token env net).
Proof.
  unfold ensure_valid_token.
  apply (traffic_bind sent 0 2); [apply traffic_get | intros w0].
  apply (traffic_bind sent 0 2).
  { apply traffic_when. apply (traffic_bind sent 0 0);
      [apply traffic_load_tokens | intro; apply traffic_ret]. }
  intros _. apply (traffic_bind sent 0 2); [apply traffic_get | intros w1].
  apply (traffic_bind sent 1 1).
  { destruct (truthy (current_refresh_token w1)
              && negb (truthy (current_access_token w1))).
    - apply (traffic_bind sent 1 0);
        [apply traffic_refresh_access_token | intro; apply traffic_ret].
    - apply (traffic_weaken sent 0 1); [lia | apply traffic_ret]. }
  intros [|]; [apply (traffic_weaken sent 0 1); [lia | apply traffic_ret] |].
  apply (traffic_bind sent 0 1); [apply traffic_get | intros w2].
  destruct (negb (truthy (current_access_token w2))).
  - apply (traffic_bind sent 1 0);
      [apply traffic_generate_oauth_tokens | intro; apply traffic_ret].
  - apply (traffic_weaken sent 0 1); [lia | apply traffic_ret].
Qed.

Lemma traffic_get_auth_headers :
  token_traffic sent 2 (get_auth_headers env net).
Proof.
  unfold get_auth_headers.
  apply (traffic_bind sent 0 2); [apply traffic_get | intros w].
  apply (traffic_bind sent 2 0).
  { apply traffic_when. apply (traffic_bind sent 2 0);
      [apply traffic_ensure_valid_token | intro; apply traffic_ret]. }
  intros _. apply (traffic_bind sent 0 0);
    [apply traffic_get | intro; apply traffic_ret].
Qed.

(** A failed refresh leaves the access token alone. *)
Lemma refresh_error_keeps_token w error w' :
  refresh_access_token env net w = (Return (RefreshError error), w') ->
  current_access_token w' = current_access_token w.
Proof.
  rewrite ServerFacts.refresh_access_token_run.
  destruct (negb (truthy (current_refresh_token w))); [now inversion 1 |].
  cbv zeta. destruct (auth_endpoint net (sent w) _) as [msg | response];
    [now inversion 1 |].
  destruct (auth_status response =? 200); [| now inversion 1].
  destruct (auth_json response); [discriminate | now inversion 1].
Qed.

Lemma oauth_error_keeps_token w error flag w' :
  generate_oauth_tokens env net w = (Return (OAuthError error flag), w') ->
  current_access_token w' = current_access_token w.
Proof.
  rewrite generate_oauth_tokens_run.
  destruct (negb (truthy (ZOHO_CLIENT_ID env))
            || negb (truthy (ZOHO_CLIENT_SECRET env))); [now inversion 1 |].
  cbv zeta. destruct (auth_endpoint net (sent w) _) as [msg | response];
    [now inversion 1 |].
  destruct (auth_status response =? 200); [| now inversion 1].
  destruct (auth_json response); [discriminate | now inversion 1].
Qed.

Lemma ensure_valid_token_held w :
  truthy (current_access_token w) = true ->
  ensure_valid_token env net w = (Return true, w).
Proof.
  intros H. unfold ensure_valid_token, bind, get, when, ret.
  rewrite H. cbn [negb]. rewrite H, andb_false_r. cbn [negb]. now rewrite H.
Qed.

Lemma ensure_valid_token_false w w' :
  ensure_valid_token env net w = (Return false, w') ->
  truthy (current_access_token w') = false.
Proof.
  assert (Hgen : forall w2,
            negb (truthy (current_access_token w2)) = true ->
            (oauth_result <- generate_oauth_tokens env net;;
             ret (oauth_success oauth_result)) w2 = (Return false, w') ->
            truthy (current_access_token w') = false).
  { intros w2 Hneg. unfold bind, ret.
    destruct (generate_oauth_tokens env net w2) as [[r | e] w3] eqn:Hrun;
      [| discriminate].
    destruct r as [a r0 ex | err flag]; cbn [oauth_success];
      [discriminate |].
    intros H. inversion H; subst w3.
    rewrite (oauth_error_keeps_token _ _ _ _ Hrun).
    now apply negb_true_iff. }
  unfold ensure_valid_token, bind at 1, get at 1, bind at 1.
  assert (Hload : exists w1,
            when (negb (truthy (current_access_token w)))
                 (load_tokens env;;; ret tt) w = (Return tt, w1)).
  { destruct (negb (truthy (current_access_token w))); cbn [when].
    - unfold bind, ret.
      destruct (ServerFacts.returning_load_tokens env w) as [b Hb].
      destruct (load_tokens env w) as [[b' | e] w1]; cbn in Hb;
        [now exists w1 | discriminate].
    - now exists w. }
  destruct Hload as [w1 Hload]. rewrite Hload.
  unfold bind at 1, get at 1, bind at 1.
  destruct (truthy (current_refresh_token w1)
            && negb (truthy (current_access_token w1))).
  - unfold bind at 1.
    destruct (refresh_access_token env net w1) as [[rr | e] w2] eqn:Hrun;
      [| discriminate].
    destruct rr as [t | error]; cbn [refresh_success]; unfold ret at 1;
      [unfold ret; discriminate |].
    unfold bind at 1, get at 1.
    destruct (negb (truthy (current_access_token w2))) eqn:Hneg;
      [| unfold ret; discriminate].
    apply Hgen, Hneg.
  - unfold ret at 1. unfold bind at 1, get at 1.
    destruct (negb (truthy (current_access_token w1))) eqn:Hneg;
      [| unfold ret; discriminate].
    apply Hgen, Hneg.
Qed.

#[local] Arguments get_auth_headers : simpl never.
#[local] Arguments refresh_access_token : simpl never.
#[local] Arguments requests_request : simpl never.
#[local] Arguments make_authenticated_request : simpl never.
#[local] Arguments ensure_valid_token : simpl never.

Lemma make_authenticated_request_traffic method url data w :
  exists l,
    sent (snd (make_authenticated_request env net method url data w)) =
    (sent w ++ l)%list
    /\ (1 <= api_calls l <= 2)%nat
    /\ (auth_posts l <= 5)%nat.
Proof.
  unfold make_authenticated_request, bind.
  destruct (ServerFacts.returning_get_auth_headers env net w) as [h Hret].
  destruct (traffic_get_auth_headers w) as (l1 & Hl1 & Ha1 & Hp1).
  destruct (get_auth_headers env net w) as [[a | e] w1]; cbn in Hret, Hl1;
    [| discriminate].
  unfold requests_request at 1.
  set (q := mk_api_request method url a data).
  destruct (api_endpoint net (sent w1) q) as [msg | response]; cbn [snd].
  - exists (l1 ++ [ApiCall q])%list. cbn [record_event sent].
    rewrite Hl1, <- app_assoc, api_calls_app, auth_posts_app.
    cbn. repeat split; lia.
  - destruct (status_code response =? 401).
    + destruct (ServerFacts.returning_refresh_access_token env net
                  (record_event (ApiCall q) w1)) as [rr Hrr].
      destruct (traffic_refresh_access_token (record_event (ApiCall q) w1))
        as (l2 & Hl2 & Ha2 & Hp2).
      destruct (refresh_access_token env net _) as [[rr' | e] w2];
        cbn in Hrr, Hl2; [| discriminate].
      destruct (refresh_success rr').
      * destruct (ServerFacts.returning_get_auth_headers env net w2)
          as [a2 Hret2].
        destruct (traffic_get_auth_headers w2) as (l3 & Hl3 & Ha3 & Hp3).
        destruct (get_auth_headers env net w2) as [[a2' | e] w3];
          cbn in Hret2, Hl3; [| discriminate].
        set (q2 := mk_api_request method url a2' data).
        exists (l1 ++ [ApiCall q] ++ l2 ++ l3 ++ [ApiCall q2])%list.
        split.
        { unfold requests_request.
          destruct (api_endpoint net (sent w3) q2); cbn [snd record_event sent];
            rewrite Hl3, Hl2, Hl1, <- !app_assoc; reflexivity. }
        rewrite !api_calls_app, !auth_posts_app. cbn. repeat split; lia.
      * exists (l1 ++ [ApiCall q] ++ l2)%list. cbn [snd ret].
        rewrite Hl2, Hl1, <- !app_assoc, !api_calls_app, !auth_posts_app.
        cbn. repeat split; lia.
    + exists (l1 ++ [ApiCall q])%list. cbn [snd ret record_event sent].
      rewrite Hl1, <- app_assoc, api_calls_app, auth_posts_app.
      cbn. repeat split; lia.
Qed.

End Facts.

(** X1. Whatever the state and whatever the network answers,
    [make_authenticated_request] sends one or two requests to the API, never
    none and never a third, and at most five posts to the token endpoint. *)
Theorem make_authenticated_request_bounds env net method url data w :
  exists l,
    sent (snd (make_authenticated_request env net method url data w)) =
    (sent w ++ l)%list
    /\ (1 <= api_calls l <= 2)%nat
    /\ (auth_posts l <= 5)%nat.
Proof. apply make_authenticated_request_traffic. Qed.

(** X2. [ensure_valid_token] never calls the API and posts at most twice to
    the token endpoint (one refresh, one client-credentials exchange). *)
Theorem ensure_valid_token_traffic env net w :
  exists l,
    sent (snd (ensure_valid_token env net w)) = (sent w ++ l)%list
    /\ api_calls l = 0%nat
    /\ (auth_posts l <= 2)%nat.
Proof. apply traffic_ensure_valid_token. Qed.

(** X3. With a non-empty access token in memory [ensure_valid_token] answers
    [True] at once, without traffic and without touching the state; and when
    it answers [False] no non-empty access token is held afterwards. *)
Theorem ensure_valid_token_verdict env net w :
  (truthy (current_access_token w) = true ->
   ensure_valid_token env net w = (Return true, w))
  /\ (forall w', ensure_valid_token env net w = (Return false, w') ->
                 truthy (current_access_token w') = false).
Proof.
  split.
  - apply ensure_valid_token_held.
  - apply ensure_valid_token_false.
Qed.

Lemma ensure_valid_token_verdict_witness :
  ensure_valid_token Samples.server_env Samples.net_auth_refused
    Samples.server_running = (Return true, Samples.server_running)
  /\ truthy (current_access_token
               (snd (ensure_valid_token Samples.server_env
                       Samples.net_auth_refused Samples.server_fresh)))
     = false.
Proof.
  split.
  - apply (proj1 (ensure_valid_token_verdict Samples.server_env
                    Samples.net_auth_refused Samples.server_running)).
    reflexivity.
  - apply (proj2 (ensure_valid_token_verdict Samples.server_env
                    Samples.net_auth_refused Samples.server_fresh)).
    vm_compute. reflexivity.
Defined.

Lemma set_refresh_token_snd env net refresh_token w :
  snd (set_refresh_token env net refresh_token w) =
  snd (refresh_access_token env net
         (snd (save_tokens None (Some refresh_token) None
                 (set_refresh (Some refresh_token) w)))).
Proof.
  unfold set_refresh_token, try_except, bind, modify.
  rewrite ServerFacts.save_tokens_run. cbn [snd].
  destruct (refresh_access_token env net _) as [[[t | error] | e] w2];
    reflexivity.
Qed.

(** What [set_refresh_token] leaves in memory and in the file, for any
    value, in terms of the reply of the token endpoint. *)
Lemma set_refresh_token_state env net refresh_token w :
  let form := RefreshGrant (Some refresh_token)
                           (ZOHO_CLIENT_ID env) (ZOHO_CLIENT_SECRET env) in
  let w' := snd (set_refresh_token env net refresh_token w) in
  let grant :=
    if truthy (Some refresh_token)
    then granted (auth_endpoint net (sent w) form) else None in
  let access :=
    match grant with
    | Some td => jget (td_access_token td)
    | None => current_access_token w
    end in
  current_access_token w' = access
  /\ current_refresh_token w' = Some refresh_token
  /\ file_writable w' = file_writable w
  /\ time_time w' = time_time w
  /\ TOKEN_FILE w' =
     (if file_writable w then
        FileJson (mk_token_doc access (Some refresh_token) (Some (time_time w))
                    (Some (match grant with
                           | Some td => int_or (td_expires_in td) 3600
                           | None => 3600
                           end)))
      else TOKEN_FILE w).
Proof.
  intros form w' grant access. subst w' grant access.
  rewrite set_refresh_token_snd, ServerFacts.save_tokens_run.
  change (truthy None) with false. cbv iota zeta.
  cbn [snd set_refresh current_access_token current_refresh_token
       file_writable time_time sent TOKEN_FILE].
  rewrite ServerFacts.refresh_access_token_run.
  cbn [current_access_token current_refresh_token file_writable time_time
       sent TOKEN_FILE].
  destruct (truthy (Some refresh_token)) eqn:Hrt.
  - rewrite Hrt. cbn [negb]. cbv zeta. fold form. unfold granted.
    destruct (auth_endpoint net (sent w) form) as [msg | response].
    { cbn [snd record_event current_access_token current_refresh_token
           file_writable time_time TOKEN_FILE int_or].
      destruct (file_writable w); repeat split. }
    destruct (auth_status response =? 200).
    2:{ cbn [snd record_event current_access_token current_refresh_token
             file_writable time_time TOKEN_FILE int_or].
        destruct (file_writable w); repeat split. }
    destruct (auth_json response) as [td |].
    2:{ cbn [snd record_event current_access_token current_refresh_token
             file_writable time_time TOKEN_FILE int_or].
        destruct (file_writable w); repeat split. }
    rewrite ServerFacts.save_tokens_run. change (truthy None) with false.
    cbn [snd record_event set_access current_access_token
         current_refresh_token file_writable time_time TOKEN_FILE].
    destruct (truthy (jget (td_access_token td)));
      destruct (file_writable w); repeat split.
  - change (truthy (Some refresh_token)) with
      (negb (refresh_token =? "")%string) in Hrt |- *.
    rewrite Hrt. cbn [negb snd current_access_token current_refresh_token
                      file_writable time_time TOKEN_FILE int_or].
    destruct (file_writable w); repeat split.
Qed.

(** X4. Calling [set_refresh_token] a second time with the same value, at
    any reading [t] of the clock and with a token endpoint whose
    answer to a form does not depend on what was sent before, leaves the
    tokens in memory as the first call left them, and the token file too
    apart from its [created_at], which becomes [t] when the file can be
    written. *)
Theorem set_refresh_token_idempotent env net refresh_token w t :
  (forall l l' f, auth_endpoint net l f = auth_endpoint net l' f) ->
  let w1 := snd (set_refresh_token env net refresh_token w) in
  let w2 := snd (set_refresh_token env net refresh_token (server_at t w1)) in
  current_access_token w2 = current_access_token w1
  /\ current_refresh_token w2 = current_refresh_token w1
  /\ TOKEN_FILE w2 =
     (if file_writable w then stamped t (TOKEN_FILE w1) else TOKEN_FILE w1).
Proof.
  intros Hnet w1 w2.
  pose proof (set_refresh_token_state env net refresh_token w) as H1.
  pose proof (set_refresh_token_state env net refresh_token (server_at t w1))
    as H2.
  cbv zeta in H1, H2. fold w1 in H1. fold w2 in H2.
  cbn [server_at sent current_access_token file_writable time_time
       TOKEN_FILE] in H2.
  rewrite (Hnet (sent w1) (sent w)) in H2.
  destruct H1 as (Ha1 & Hr1 & Hw1 & Ht1 & Hf1).
  destruct H2 as (Ha2 & Hr2 & Hw2 & Ht2 & Hf2).
  rewrite Hw1 in Hf2.
  destruct (if truthy (Some refresh_token)
            then granted (auth_endpoint net (sent w)
                            (RefreshGrant (Some refresh_token)
                               (ZOHO_CLIENT_ID env) (ZOHO_CLIENT_SECRET env)))
            else None) as [td |].
  - rewrite Ha2, Ha1, Hr2, Hr1, Hf2, Hf1.
    destruct (file_writable w); repeat split.
  - rewrite Ha2, Hr2, Hr1, Hf2, Hf1, Ha1.
    destruct (file_writable w); repeat split.
Qed.

Lemma set_refresh_token_idempotent_witness :
  let w1 := snd (set_refresh_token Samples.server_env Samples.net_401_granted
                   "RT_NEW" Samples.server_running) in
  let w2 := snd (set_refresh_token Samples.server_env Samples.net_401_granted
                   "RT_NEW" (server_at 1700000005 w1)) in
  current_access_token w2 = current_access_token w1
  /\ current_refresh_token w2 = current_refresh_token w1
  /\ TOKEN_FILE w2 =
     (if file_writable Samples.server_running
      then stamped 1700000005 (TOKEN_FILE w1) else TOKEN_FILE w1).
Proof.
  apply (set_refresh_token_idempotent Samples.server_env
           Samples.net_401_granted "RT_NEW" Samples.server_running
           1700000005).
  reflexivity.
Defined.

(** X5. [load_tokens] sends nothing, leaves the token file alone, and
    loading a second time changes nothing more: same answer, same state. *)
Theorem load_tokens_idempotent env w :
  let w1 := snd (load_tokens env w) in
  load_tokens env w1 = (fst (load_tokens env w), w1)
  /\ TOKEN_FILE w1 = TOKEN_FILE w
  /\ sent w1 = sent w.
Proof.
  destruct w as [ca cr tf fw tt0 sn].
  unfold load_tokens, bind, get, modify, when, ret; cbn -[String.eqb].
  destruct tf as [| | d]; cbn -[String.eqb].
  - destruct (negb (ZOHO_ACCESS_TOKEN env =? sentinel)%string) eqn:Ha;
      destruct (negb (ZOHO_REFRESH_TOKEN env =? sentinel)%string) eqn:Hr;
      cbn -[String.eqb]; rewrite ?Ha, ?Hr; cbn -[String.eqb];
      rewrite ?Ha, ?Hr; repeat split.
  - destruct (negb (ZOHO_ACCESS_TOKEN env =? sentinel)%string) eqn:Ha;
      destruct (negb (ZOHO_REFRESH_TOKEN env =? sentinel)%string) eqn:Hr;
      cbn -[String.eqb]; rewrite ?Ha, ?Hr; cbn -[String.eqb];
      rewrite ?Ha, ?Hr; repeat split.
  - repeat split.
Qed.

Lemma length_append (a b : string) :
  String.length (a ++ b) = (String.length a + String.length b)%nat.
Proof.
  induction a as [| c a IH]; [reflexivity |].
  change (String c a ++ b) with (String c (a ++ b)).
  cbn [String.length plus]. now rewrite IH.
Qed.

Lemma length_substring_le (m : nat) (s : string) :
  (String.length (substring 0 m s) <= m)%nat.
Proof.
  revert s. induction m as [| m IH]; intros [| c s]; cbn; try lia.
  specialize (IH s). lia.
Qed.

Lemma preview_length (o : option string) :
  (String.length (preview o) <= 23)%nat.
Proof.
  unfold preview. destruct o as [s |]; [| cbn; lia].
  destruct (s =? "")%string; [cbn; lia |].
  rewrite length_append. pose proof (length_substring_le 20 s). cbn. lia.
Qed.

(** X6. [get_token_status] shows at most the first 20 characters of a token
    (23 characters with the dots) and at most the first 10 of the client
    id: a token longer than 23 characters is never shown in full. *)
Theorem token_status_previews env w :
  let status := ServerTools.get_token_status env w in
  (String.length (ServerTools.access_token_preview status) <= 23)%nat
  /\ (String.length (ServerTools.refresh_token_preview status) <= 23)%nat
  /\ (String.length (ServerTools.client_id status) <= 13)%nat
  /\ (forall t, current_access_token w = Some t ->
                (23 < String.length t)%nat ->
                ServerTools.access_token_preview status <> t)
  /\ (forall t, current_refresh_token w = Some t ->
                (23 < String.length t)%nat ->
                ServerTools.refresh_token_preview status <> t).
Proof.
  cbn [ServerTools.get_token_status ServerTools.access_token_preview
       ServerTools.refresh_token_preview ServerTools.client_id].
  pose proof (preview_length (current_access_token w)) as Ha.
  pose proof (preview_length (current_refresh_token w)) as Hr.
  repeat split; try assumption.
  - destruct (ZOHO_CLIENT_ID env) as [s |]; [| cbn; lia].
    destruct (s =? "")%string; [cbn; lia |].
    rewrite length_append. pose proof (length_substring_le 10 s). cbn. lia.
  - intros t _ Hlen Heq. rewrite Heq in Ha. lia.
  - intros t _ Hlen Heq. rewrite Heq in Hr. lia.
Qed.

(** X8. [test_zoho_connection] raises nothing; and when
    [ensure_valid_token] answers [False] it returns the error result
    without any request to the API. *)
Theorem test_zoho_connection_without_token env net json_is_dict w :
  (exists r, fst (ServerTools.test_zoho_connection env net json_is_dict w)
             = Return r)
  /\ (forall w1,
        ensure_valid_token env net w = (Return false, w1) ->
        ServerTools.test_zoho_connection env net json_is_dict w =
        (Return (ToolError "No valid tokens available. Cannot test connection."
                           None), w1)
        /\ api_calls (sent w1) = api_calls (sent w)).
Proof.
  split.
  - unfold ServerTools.test_zoho_connection.
    apply returning_try_except. intro e. apply returning_ret.
  - intros w1 Hfalse. split.
    + unfold ServerTools.test_zoho_connection, try_except, bind.
      rewrite Hfalse. reflexivity.
    + destruct (ensure_valid_token_traffic env net w) as (l & Hl & Ha & _).
      rewrite Hfalse in Hl. cbn [snd] in Hl.
      rewrite Hl, api_calls_app, Ha. lia.
Qed.

Lemma test_zoho_connection_without_token_witness :
  ServerTools.test_zoho_connection Samples.server_env Samples.net_auth_refused
    (fun _ => true) Samples.server_fresh =
  (Return (ToolError "No valid tokens available. Cannot test connection." None),
   snd (ensure_valid_token Samples.server_env Samples.net_auth_refused
          Samples.server_fresh))
  /\ api_calls (sent (snd (ensure_valid_token Samples.server_env
                             Samples.net_auth_refused Samples.server_fresh)))
     = api_calls (sent Samples.server_fresh).
Proof.
  apply (proj2 (test_zoho_connection_without_token Samples.server_env
                  Samples.net_auth_refused (fun _ => true)
                  Samples.server_fresh)).
  vm_compute. reflexivity.
Defined.

Section ModuleData.

Variable env : environ.
Variable net : network.
Variable data_count : api_response -> option Z.

Lemma fetch_modules_reports_all modules :
  forall all_data errors w d e w',
    ServerTools.fetch_modules env net data_count modules all_data errors w
    = (Return (d, e), w') ->
    Permutation (map fst d ++ map ServerTools.err_module e)
                (map fst all_data ++ map ServerTools.err_module errors
                   ++ modules)
    /\ exists l,
         sent w' = (sent w ++ l)%list
         /\ (List.length modules <= api_calls l <= 2 * List.length modules)%nat.
Proof.
  induction modules as [| module rest IH]; intros all_data errors w d e w' H.
  - cbn in H. inversion H; subst. split.
    + now rewrite app_nil_r.
    + exists []. rewrite app_nil_r. cbn. split; [reflexivity | lia].
  - cbn [ServerTools.fetch_modules] in H. unfold bind in H.
    destruct (ServerMore.make_authenticated_request_bounds env net "GET"
                (ZOHO_CRM_BASE_URL env ++ "/" ++ module) None w)
      as (l1 & Hl1 & Hc1 & _).
    destruct (make_authenticated_request env net "GET" _ None w)
      as [[response | ex] w1]; [| discriminate]. cbn [snd] in Hl1.
    destruct (status_code response =? 200).
    + destruct (data_count response) as [count |]; [| discriminate].
      apply IH in H. destruct H as (Hperm & l2 & Hl2 & Hc2). split.
      * rewrite Hperm. rewrite map_app. cbn [map fst].
        rewrite <- !app_assoc. apply Permutation_app_head. cbn [app].
        apply Permutation_middle.
      * exists (l1 ++ l2)%list. rewrite Hl2, Hl1, app_assoc, api_calls_app.
        split; [reflexivity |]. cbn [List.length]. lia.
    + apply IH in H. destruct H as (Hperm & l2 & Hl2 & Hc2). split.
      * rewrite Hperm. rewrite map_app. cbn [map ServerTools.err_module].
        rewrite <- !app_assoc. do 2 apply Permutation_app_head. cbn [app].
        reflexivity.
      * exists (l1 ++ l2)%list. rewrite Hl2, Hl1, app_assoc, api_calls_app.
        split; [reflexivity |]. cbn [List.length]. lia.
Qed.

End ModuleData.

(** X7. When [get_module_data] is called without a module name and returns,
    it reports each of the eight modules exactly once, either with its data
    or in the list of errors (an error answer for a module is no failure of
    the call), and it has sent between 8 and 16 requests to the API. *)
Theorem get_module_data_reports_all env net data_count w r w' :
  ServerTools.get_module_data env net data_count None w = (Return r, w') ->
  exists modules_fetched total_records data errors,
    r = ServerTools.AllModules modules_fetched total_records data errors
    /\ modules_fetched = Z.of_nat (List.length data)
    /\ Permutation
         (map fst data
            ++ map ServerTools.err_module
                 (match errors with Some e => e | None => [] end))
         ServerTools.ZOHO_MODULES
    /\ exists l,
         sent w' = (sent w ++ l)%list /\ (8 <= api_calls l <= 16)%nat.
Proof.
  unfold ServerTools.get_module_data, bind. intros H.
  destruct (ServerTools.fetch_modules env net data_count
              ServerTools.ZOHO_MODULES [] [] w) as [[[d e] | ex] w1] eqn:Hrun;
    [| discriminate].
  apply fetch_modules_reports_all in Hrun.
  destruct Hrun as (Hperm & l & Hl & Hc).
  unfold ret in H. inversion H; subst r w'. cbn [fst snd].
  eexists _, _, _, _. split; [reflexivity |]. split; [reflexivity |]. split.
  - cbn [map app] in Hperm. destruct e; exact Hperm.
  - exists l. split; [exact Hl |]. cbn in Hc. lia.
Qed.

Lemma get_module_data_reports_all_witness :
  exists modules_fetched total_records data errors,
    ServerTools.AllModules 0 0 []
      (Some (map (fun m => ServerTools.mk_module_error m 404 "Not Found")
                 ServerTools.ZOHO_MODULES))
    = ServerTools.AllModules modules_fetched total_records data errors
    /\ modules_fetched = Z.of_nat (List.length data)
    /\ Permutation
         (map fst data
            ++ map ServerTools.err_module
                 (match errors with Some e => e | None => [] end))
         ServerTools.ZOHO_MODULES
    /\ exists l,
         sent (snd (ServerTools.get_module_data Samples.server_env
                      Samples.net_404 (fun _ => Some 0) None
                      Samples.server_running))
         = (sent Samples.server_running ++ l)%list
         /\ (8 <= api_calls l <= 16)%nat.
Proof.
  apply (get_module_data_reports_all Samples.server_env Samples.net_404
           (fun _ => Some 0) Samples.server_running).
  vm_compute. reflexivity.
Defined.

End ServerMore.

(** ** legacy server: token cache and request *)

Module LegacyMore.
Import Legacy.

#[local] Arguments String.append : simpl never.

Section Facts.

Variable cfg : config.
Variable net : network.

(** [get_valid_token] case by case. *)
Lemma get_valid_token_run s :
  get_valid_token cfg net s =
  if token_usable s then (Return (_access_token s), s)
  else
    let s1 := record_event (AuthPost (legacy_refresh_form cfg)) s in
    match auth_endpoint net (sent s) (legacy_refresh_form cfg) with
    | inl msg =>
        (Raise (HTTPException 500 ("Token refresh network error: " ++ msg)), s1)
    | inr response =>
        if negb (auth_status response =? 200) then
          (Raise (HTTPException 500 "Failed to refresh Zoho access token"), s1)
        else
          match auth_json response with
          | None =>
              (Raise (HTTPException 500
                        ("Token refresh network error: " ++ "Expecting value")),
               s1)
          | Some td =>
              match td_access_token td with
              | Missing =>
                  (Raise (HTTPException 500 "Invalid token response from Zoho"),
                   s1)
              | field =>
                  match datetime_after (now s)
                          (get_default (td_expires_in td) 3600 - 300) with
                  | inl e =>
                      (Raise e,
                       set_token (jget field) (_token_expires_at s) s1)
                  | inr t =>
                      (Return (jget field), set_token (jget field) (Some t) s1)
                  end
              end
          end
    end.
Proof.
  unfold get_valid_token, bind at 1, get at 1.
  destruct (token_usable s); [reflexivity |].
  unfold except_RequestException, try_except, bind at 1, requests_post.
  fold (legacy_refresh_form cfg).
  destruct (auth_endpoint net (sent s) (legacy_refresh_form cfg)) as [msg | response];
    [reflexivity |].
  destruct (negb (auth_status response =? 200)); [reflexivity |].
  destruct (auth_json response) as [td |]; [| reflexivity].
  destruct (td_access_token td); [reflexivity | |];
    unfold bind, modify, get; cbn [now set_token record_event];
    destruct (datetime_after (now s) _) as [e | t] eqn:Hdate;
    try reflexivity;
    destruct (datetime_after_raises _ _ _ Hdate) as [msg ->]; reflexivity.
Qed.



End Facts.

(** X9. Legacy [get_valid_token]: after a granted refresh with a non-empty
    access token and [expires_in = e] whose expiry, the time of the refresh
    plus [e - 300] seconds, could be computed, the token is served from
    memory, without any traffic, at every clock reading before that expiry,
    and is no longer usable from then on (so with [e <= 300] it is never
    served from memory). *)
Theorem legacy_token_cache_window cfg net s response td tok t :
  token_usable s = false ->
  auth_endpoint net (sent s) (legacy_refresh_form cfg) = inr response ->
  auth_status response = 200 ->
  auth_json response = Some td ->
  td_access_token td = Value tok ->
  tok <> "" ->
  let e := get_default (td_expires_in td) 3600 in
  datetime_after (now s) (e - 300) = inr t ->
  let run := get_valid_token cfg net s in
  fst run = Return (Some tok)
  /\ sent (snd run) = (sent s ++ [AuthPost (legacy_refresh_form cfg)])%list
  /\ t = now s + (e - 300) * 1000000
  /\ forall s2,
       _access_token s2 = _access_token (snd run) ->
       _token_expires_at s2 = _token_expires_at (snd run) ->
       (now s2 < t -> get_valid_token cfg net s2 = (Return (Some tok), s2))
       /\ (t <= now s2 -> token_usable s2 = false).
Proof.
  intros Hstale Hreply Hst Hjs Hacc Htok e Hdate run. subst run e.
  rewrite get_valid_token_run, Hstale. cbv zeta.
  rewrite Hreply, Hst. change (negb (200 =? 200)) with false. cbv iota.
  rewrite Hjs, Hacc, Hdate.
  cbn [fst snd jget set_token record_event sent _access_token
       _token_expires_at].
  split; [reflexivity |]. split; [reflexivity |].
  split; [now apply datetime_after_inr |].
  intros s2 Ha He. split.
  - intros Hbefore. rewrite get_valid_token_run.
    unfold token_usable. rewrite Ha, He. cbn [truthy].
    replace (tok =? "")%string with false
      by (symmetry; now apply String.eqb_neq).
    replace (now s2 <? t) with true by (symmetry; now apply Z.ltb_lt).
    reflexivity.
  - intros Hafter. unfold token_usable. rewrite Ha, He.
    replace (now s2 <? t) with false by (symmetry; now apply Z.ltb_ge).
    apply andb_false_r.
Qed.

Lemma legacy_token_cache_window_witness :
  let run := get_valid_token Samples.legacy_config Samples.net_401_granted
               MoreSamples.legacy_fresh in
  fst run = Return (Some "AT_NEW")
  /\ sent (snd run) =
     (sent MoreSamples.legacy_fresh
        ++ [AuthPost (legacy_refresh_form Samples.legacy_config)])%list
  /\ 1700003300000000 = now MoreSamples.legacy_fresh + (3600 - 300) * 1000000
  /\ forall s2,
       _access_token s2 = _access_token (snd run) ->
       _token_expires_at s2 = _token_expires_at (snd run) ->
       (now s2 < 1700003300000000 ->
        get_valid_token Samples.legacy_config Samples.net_401_granted s2
        = (Return (Some "AT_NEW"), s2))
       /\ (1700003300000000 <= now s2 -> token_usable s2 = false).
Proof.
  apply (legacy_token_cache_window Samples.legacy_config
           Samples.net_401_granted MoreSamples.legacy_fresh
           (Samples.token_reply (Value "AT_NEW") (Some 3600))
           (mk_token_data (Value "AT_NEW") None (Some 3600)) "AT_NEW"
           1700003300000000);
    try reflexivity; discriminate.
Defined.


End LegacyMore.

(** ** client.py: bounds of a call, reuse of the token, the rate window *)

Module ClientMore.
Import Client.

#[local] Arguments String.append : simpl never.

Section Facts.

Variable net : network.

Lemma refresh_traffic s :
  exists l,
    sent (snd (_refresh_access_token net s)) = (sent s ++ l)%list
    /\ api_calls l = 0%nat /\ (auth_posts l <= 1)%nat.
Proof.
  exists [AuthPost (refresh_form s)].
  rewrite ClientFacts.refresh_access_token_sends. cbn. repeat split; lia.
Qed.

Lemma attempt_body_traffic method url data authorization s :
  exists l,
    sent (snd (attempt_body net method url data authorization s)) =
    (sent s ++ ApiCall (mk_api_request method url authorization data) :: l)%list
    /\ api_calls l = 0%nat /\ (auth_posts l <= 1)%nat.
Proof.
  unfold attempt_body, bind at 1, session_request.
  set (q := mk_api_request method url authorization data).
  destruct (api_endpoint net (sent s) q) as [msg | response].
  { exists []. cbn. repeat split; lia. }
  destruct (status_code response =? 401).
  - unfold bind at 1.
    destruct (refresh_traffic (record_event (ApiCall q) s))
      as (l & Hl & Ha & Hp).
    exists l. split; [| split; assumption].
    destruct (_refresh_access_token net (record_event (ApiCall q) s))
      as [[u | e] s1]; cbn [snd] in Hl; unfold bind, get, ret; cbn [snd];
      rewrite Hl; cbn [record_event sent]; now rewrite <- app_assoc.
  - exists []. destruct (400 <=? status_code response); cbn; repeat split; lia.
Qed.

Lemma request_loop_traffic k :
  forall attempt method url data authorization s,
  exists l,
    sent (snd (request_loop net k attempt method url data authorization s)) =
    (sent s ++ l)%list
    /\ (api_calls l <= k)%nat /\ (auth_posts l <= k)%nat.
Proof.
  induction k as [| k IH]; intros attempt method url data authorization s.
  - exists []. cbn. rewrite app_nil_r. repeat split; lia.
  - rewrite ClientFacts.request_loop_turn.
    destruct (attempt_body_traffic method url data authorization s)
      as (l1 & Hl1 & Ha1 & Hp1).
    set (q := mk_api_request method url authorization data) in *.
    destruct (attempt_body net method url data authorization s)
      as [[[authorization' | v] | e] s1]; cbn [snd] in Hl1.
    + destruct (IH (attempt + 1) method url data authorization' s1)
        as (l2 & Hl2 & Ha2 & Hp2).
      exists ((ApiCall q :: l1) ++ l2)%list.
      rewrite Hl2, Hl1, <- app_assoc, api_calls_app, auth_posts_app.
      change (api_calls (ApiCall q :: l1)) with (Datatypes.S (api_calls l1)).
      change (auth_posts (ApiCall q :: l1)) with (auth_posts l1).
      repeat split; lia.
    + exists (ApiCall q :: l1). cbn [snd]. rewrite Hl1.
      change (api_calls (ApiCall q :: l1)) with (Datatypes.S (api_calls l1)).
      change (auth_posts (ApiCall q :: l1)) with (auth_posts l1).
      repeat split; lia.
    + destruct (attempt =? 2).
      * exists (ApiCall q :: l1). cbn [snd]. rewrite Hl1.
        change (api_calls (ApiCall q :: l1)) with (Datatypes.S (api_calls l1)).
        change (auth_posts (ApiCall q :: l1)) with (auth_posts l1).
        repeat split; lia.
      * destruct (IH (attempt + 1) method url data authorization
                    (snd (asyncio_sleep (timedelta_seconds (2 ^ attempt)) s1)))
          as (l2 & Hl2 & Ha2 & Hp2).
        exists ((ApiCall q :: l1) ++ l2)%list.
        rewrite Hl2. cbn [asyncio_sleep modify snd sent]. rewrite Hl1.
        rewrite <- app_assoc, api_calls_app, auth_posts_app.
        change (api_calls (ApiCall q :: l1)) with (Datatypes.S (api_calls l1)).
        change (auth_posts (ApiCall q :: l1)) with (auth_posts l1).
        repeat split; lia.
Qed.

Lemma rate_limit_check_keeps_log s :
  sent (snd (_rate_limit_check s)) = sent s.
Proof.
  rewrite ClientFacts.rate_limit_check_run. cbv zeta.
  destruct (max_requests_per_minute s <=? _); [| reflexivity].
  destruct (filter _ (request_timestamps s)); [reflexivity |].
  destruct (0 <? _); reflexivity.
Qed.

End Facts.

(** X11. Whatever the state and whatever the network answers, one call of
    [_make_request] sends at most three requests to the API and at most four
    posts to the token endpoint (one before the loop, one per turn). *)
Theorem make_request_bounds net method url data s :
  exists l,
    sent (snd (_make_request net method url data s)) = (sent s ++ l)%list
    /\ (api_calls l <= 3)%nat
    /\ (auth_posts l <= 4)%nat.
Proof.
  unfold _make_request, bind at 1.
  assert (H0 : exists l,
            sent (snd (_ensure_valid_token net s)) = (sent s ++ l)%list
            /\ api_calls l = 0%nat /\ (auth_posts l <= 1)%nat).
  { unfold _ensure_valid_token, bind, get. destruct (token_stale s).
    - apply refresh_traffic.
    - exists []. cbn. rewrite app_nil_r. repeat split; lia. }
  destruct H0 as (l0 & Hl0 & Ha0 & Hp0).
  destruct (_ensure_valid_token net s) as [[u | e] s0]; cbn [snd] in *.
  2:{ exists l0. repeat split; [assumption | lia | lia]. }
  unfold bind at 1. pose proof (rate_limit_check_keeps_log s0) as Hrl.
  destruct (_rate_limit_check s0) as [[u' | e] s1]; cbn [snd] in *.
  2:{ exists l0. rewrite Hrl. repeat split; [assumption | lia | lia]. }
  unfold bind, get.
  destruct (request_loop_traffic net 3 0 method url data (authorization_of s1) s1)
    as (l & Hl & Ha & Hp).
  exists (l0 ++ l)%list.
  rewrite Hl, Hrl, Hl0, <- app_assoc, api_calls_app, auth_posts_app.
  repeat split; lia.
Qed.

Section ReuseFacts.

Variable net : network.

Lemma on_post_reply_keeps_sleeps reply s :
  slept (snd (on_post_reply reply s)) = slept s.
Proof.
  destruct (ClientFacts.on_post_reply_frame reply s) as (a & e & ->).
  reflexivity.
Qed.

Lemma attempt_body_keeps_sleeps method url data authorization s :
  slept (snd (attempt_body net method url data authorization s)) = slept s.
Proof.
  unfold attempt_body, bind at 1, session_request.
  destruct (api_endpoint net (sent s) _) as [msg | response]; [reflexivity |].
  destruct (status_code response =? 401).
  - unfold bind at 1, _refresh_access_token, post_sent.
    match goal with
    | |- context [on_post_reply ?r ?x] =>
        pose proof (on_post_reply_keeps_sleeps r x) as H;
        destruct (on_post_reply r x) as [[u | e] s1]
    end; cbn [snd] in H; unfold bind, get, ret; cbn [snd]; now rewrite H.
  - destruct (400 <=? status_code response); reflexivity.
Qed.

Lemma request_loop_sleeps k :
  forall attempt method url data authorization s,
  exists later,
    slept (snd (request_loop net k attempt method url data authorization s)) =
    (slept s ++ later)%list.
Proof.
  induction k as [| k IH]; intros attempt method url data authorization s.
  - exists []. cbn. now rewrite app_nil_r.
  - rewrite ClientFacts.request_loop_turn.
    pose proof (attempt_body_keeps_sleeps method url data authorization s) as H1.
    destruct (attempt_body net method url data authorization s)
      as [[[authorization' | v] | e] s1]; cbn [snd] in H1.
    + destruct (IH (attempt + 1) method url data authorization' s1) as [l Hl].
      exists l. now rewrite Hl, H1.
    + exists []. cbn [snd]. now rewrite H1, app_nil_r.
    + destruct (attempt =? 2).
      * exists []. cbn [snd]. now rewrite H1, app_nil_r.
      * destruct (IH (attempt + 1) method url data authorization
                    (snd (asyncio_sleep (timedelta_seconds (2 ^ attempt)) s1)))
          as [l Hl].
        exists (timedelta_seconds (2 ^ attempt) :: l). rewrite Hl.
        cbn [asyncio_sleep modify snd slept]. rewrite H1.
        now rewrite <- app_assoc.
Qed.

(** A 401 whose forced refresh is not granted raises inside the [try], with
    the token and the header as they were. *)
Lemma attempt_body_401_not_granted method url data authorization s r :
  let request := mk_api_request method url authorization data in
  let s1 := record_event (ApiCall request) s in
  api_endpoint net (sent s) request = inr r ->
  status_code r = 401 ->
  granted (auth_endpoint net (sent s1) (refresh_form s)) = None ->
  exists e,
    attempt_body net method url data authorization s =
    (Raise e, record_event (AuthPost (refresh_form s)) s1).
Proof.
  intros request s1 Hreply H401 Hgrant.
  unfold attempt_body, bind at 1, session_request. fold request.
  rewrite Hreply, H401. change (401 =? 401) with true. cbv iota.
  unfold bind at 1, _refresh_access_token, post_sent. fold s1.
  change (refresh_form s1) with (refresh_form s).
  unfold granted in Hgrant. unfold on_post_reply.
  destruct (auth_endpoint net (sent s1) (refresh_form s)) as [msg | response];
    [eexists; reflexivity |].
  destruct (auth_status response =? 200); [| eexists; reflexivity].
  rewrite Hgrant. eexists; reflexivity.
Qed.

End ReuseFacts.

(** X12. When the first answer of the API is 401 and the forced refresh is
    not granted (transport error, status other than 200, or a body that is
    not JSON), [_make_request] sleeps one second and sends the request again
    with the same [Authorization] header, that is with the access token the
    API has just refused. *)
Theorem refused_token_is_sent_again net method url data s r :
  let kept := filter (fun ts => utcnow s - ts <? timedelta_minutes 1)
                     (request_timestamps s) in
  let request := mk_api_request method url (authorization_of s) data in
  token_stale s = false ->
  Z.of_nat (List.length kept) < max_requests_per_minute s ->
  api_endpoint net (sent s) request = inr r ->
  status_code r = 401 ->
  granted (auth_endpoint net (sent s ++ [ApiCall request])%list (refresh_form s))
  = None ->
  let run := _make_request net method url data s in
  (exists later,
     sent (snd run) =
     (sent s ++ [ApiCall request; AuthPost (refresh_form s); ApiCall request]
        ++ later)%list)
  /\ (exists later,
        slept (snd run) = (slept s ++ timedelta_seconds 1 :: later)%list).
Proof.
  intros kept request Hfresh Hroom Hreply H401 Hgrant run. subst run.
  rewrite (ClientFacts.make_request_enters_loop net method url data s
             Hfresh Hroom). fold kept.
  set (s0 := set_timestamps (kept ++ [utcnow s]) s).
  rewrite ClientFacts.request_loop_turn.
  destruct (attempt_body_401_not_granted net method url data
              (authorization_of s) s0 r Hreply H401 Hgrant) as [e He].
  rewrite He. change (0 =? 2) with false. cbv iota.
  set (s2 := snd (asyncio_sleep (timedelta_seconds (2 ^ 0)) _)).
  rewrite ClientFacts.request_loop_turn.
  destruct (attempt_body_traffic net method url data (authorization_of s) s2)
    as (l1 & Hl1 & _).
  pose proof (attempt_body_keeps_sleeps net method url data
                (authorization_of s) s2) as Hs1.
  fold request in Hl1.
  assert (Hsent2 : sent s2 =
            (sent s ++ [ApiCall request; AuthPost (refresh_form s)])%list).
  { subst s2 s0. cbn [asyncio_sleep modify snd sent record_event set_timestamps].
    now rewrite <- app_assoc. }
  assert (Hslept2 : slept s2 = (slept s ++ [timedelta_seconds 1])%list)
    by reflexivity.
  destruct (attempt_body net method url data (authorization_of s) s2)
    as [[[authorization' | v] | e2] s3]; cbn [snd] in Hl1, Hs1.
  - destruct (request_loop_traffic net 1 (0 + 1 + 1) method url data
                authorization' s3) as (l2 & Hl2 & _).
    destruct (request_loop_sleeps net 1 (0 + 1 + 1) method url data
                authorization' s3) as (sl & Hsl).
    split.
    + exists (l1 ++ l2)%list. rewrite Hl2, Hl1, Hsent2.
      rewrite <- !app_assoc. reflexivity.
    + exists sl. rewrite Hsl, Hs1, Hslept2. now rewrite <- app_assoc.
  - cbn [snd]. split.
    + exists l1. rewrite Hl1, Hsent2. now rewrite <- !app_assoc.
    + exists []. now rewrite Hs1, Hslept2.
  - change (0 + 1 =? 2) with false. cbv iota.
    set (s4 := snd (asyncio_sleep (timedelta_seconds (2 ^ (0 + 1))) s3)).
    destruct (request_loop_traffic net 1 (0 + 1 + 1) method url data
                (authorization_of s) s4) as (l2 & Hl2 & _).
    destruct (request_loop_sleeps net 1 (0 + 1 + 1) method url data
                (authorization_of s) s4) as (sl & Hsl).
    split.
    + exists (l1 ++ l2)%list. rewrite Hl2. subst s4.
      cbn [asyncio_sleep modify snd sent]. rewrite Hl1, Hsent2.
      rewrite <- !app_assoc. reflexivity.
    + exists (timedelta_seconds (2 ^ (0 + 1)) :: sl). rewrite Hsl. subst s4.
      cbn [asyncio_sleep modify snd slept]. rewrite Hs1, Hslept2.
      now rewrite <- !app_assoc.
Qed.

Lemma refused_token_is_sent_again_witness :
  let s := Samples.client_running in
  let request :=
    mk_api_request "GET" "https://www.zohoapis.com/crm/v3/Leads"
      (authorization_of s) None in
  let run := _make_request Samples.net_401_refused "GET"
               "https://www.zohoapis.com/crm/v3/Leads" None s in
  (exists later,
     sent (snd run) =
     (sent s ++ [ApiCall request; AuthPost (refresh_form s); ApiCall request]
        ++ later)%list)
  /\ (exists later,
        slept (snd run) = (slept s ++ timedelta_seconds 1 :: later)%list).
Proof.
  apply (refused_token_is_sent_again Samples.net_401_refused "GET"
           "https://www.zohoapis.com/crm/v3/Leads" None Samples.client_running
           Samples.reply_401); vm_compute; congruence.
Defined.

Lemma filter_repeat_now (t : Z) (n : nat) :
  filter (fun ts => t - ts <? timedelta_minutes 1) (repeat t n) = repeat t n.
Proof.
  induction n as [| n IH]; [reflexivity |].
  cbn [repeat filter]. rewrite IH.
  replace (t - t <? timedelta_minutes 1) with true; [reflexivity |].
  symmetry. apply Z.ltb_lt. rewrite Z.sub_diag. reflexivity.
Qed.

(** X13. Calls that all fall on the same clock reading, against an empty
    window and a limit of [L > 0] requests per minute: the first [L] pass
    [_rate_limit_check] without any sleep, and the next one sleeps the full
    60 seconds before it returns. *)
Theorem rate_limit_burst (L : nat) s :
  request_timestamps s = [] ->
  max_requests_per_minute s = Z.of_nat L ->
  (0 < L)%nat ->
  let after n := Nat.iter n (fun s => snd (_rate_limit_check s)) s in
  (forall n, (n <= L)%nat ->
     request_timestamps (after n) = repeat (utcnow s) n
     /\ slept (after n) = slept s
     /\ utcnow (after n) = utcnow s)
  /\ fst (_rate_limit_check (after L)) = Return tt
  /\ slept (after (Datatypes.S L)) = (slept s ++ [timedelta_seconds 60])%list.
Proof.
  intros Hempty Hmax Hpos after.
  assert (Hinv : forall n, (n <= L)%nat ->
            request_timestamps (after n) = repeat (utcnow s) n
            /\ slept (after n) = slept s /\ utcnow (after n) = utcnow s
            /\ max_requests_per_minute (after n) = Z.of_nat L).
  { induction n as [| n IH]; intros Hn.
    - cbn. repeat split; assumption.
    - destruct IH as (Hts & Hsl & Hnow & Hlim); [lia |].
      subst after. cbn [Nat.iter nat_rect].
      set (sn := Nat.iter n (fun s => snd (_rate_limit_check s)) s) in *.
      unfold Nat.iter in sn. fold sn.
      rewrite ClientFacts.rate_limit_check_below_limit.
      + rewrite Hnow, Hts, filter_repeat_now.
        cbn [snd set_timestamps request_timestamps slept utcnow
             max_requests_per_minute].
        repeat split; try assumption.
        symmetry. apply (repeat_cons n (utcnow s)).
      + rewrite Hnow, Hts, filter_repeat_now, repeat_length, Hlim. lia. }
  split; [| split].
  - intros n Hn. destruct (Hinv n Hn) as (H1 & H2 & H3 & _). auto.
  - apply ClientFacts.rate_limit_check_returns.
    destruct (Hinv L (le_n L)) as (_ & _ & _ & Hlim). rewrite Hlim. lia.
  - destruct (Hinv L (le_n L)) as (Hts & Hsl & Hnow & Hlim).
    subst after. cbn [Nat.iter nat_rect].
    set (sL := Nat.iter L (fun s => snd (_rate_limit_check s)) s) in *.
    unfold Nat.iter in sL. fold sL.
    rewrite ClientFacts.rate_limit_check_run. cbv zeta.
    rewrite Hnow, Hts, filter_repeat_now, repeat_length, Hlim, Z.leb_refl.
    destruct L as [| L']; [lia |]. cbn [repeat].
    rewrite Z.sub_diag, Z.sub_0_r.
    change (0 <? timedelta_seconds 60) with true. cbv iota.
    cbn [snd slept]. now rewrite Hsl.
Qed.

Lemma rate_limit_burst_witness :
  let s := MoreSamples.client_limit3 in
  let after n := Nat.iter n (fun s => snd (_rate_limit_check s)) s in
  (forall n, (n <= 3)%nat ->
     request_timestamps (after n) = repeat (utcnow s) n
     /\ slept (after n) = slept s
     /\ utcnow (after n) = utcnow s)
  /\ fst (_rate_limit_check (after 3%nat)) = Return tt
  /\ slept (after 4%nat) = (slept s ++ [timedelta_seconds 60])%list.
Proof.
  apply (rate_limit_burst 3 MoreSamples.client_limit3); try reflexivity; lia.
Defined.

End ClientMore.

(** ** error_handler.py: the circuit breaker over several calls *)

Module BreakerMore.
Import Breaker.

Lemma dot_seconds_below d timeout :
  0 <= d < timeout * 1000000 -> timedelta_dot_seconds d < timeout.
Proof.
  intros Hd. unfold timedelta_dot_seconds.
  assert (H1 : 0 <= d / 1000000) by (apply Z.div_pos; lia).
  assert (H2 : d / 1000000 < timeout)
    by (apply Z.div_lt_upper_bound; lia).
  pose proof (Z.mod_le (d / 1000000) 86400 H1 ltac:(lia)). lia.
Qed.



Section Failures.

Context {F A : Type}.
Variable failure_threshold : Z.
Variable recovery_timeout : Z.
Variable func_name : string.
Variable func : M F A.
Hypothesis always_raises : forall f, exists e, fst (func f) = Raise e.

Lemma failed_call_closed st f t :
  open st = false ->
  snd (wrapper failure_threshold recovery_timeout func_name func t t (st, f)) =
  (mk_state (failures st + 1) (Some t)
            (failure_threshold <=? failures st + 1),
   snd (func f)).
Proof.
  intros Ho. unfold wrapper. rewrite Ho.
  destruct (always_raises f) as [e He].
  destruct (func f) as [[r | e'] f']; cbn in He; [discriminate |].
  cbn [snd]. rewrite Ho.
  destruct (failure_threshold <=? failures st + 1); reflexivity.
Qed.

Lemma failures_accumulate times :
  forall st f,
    open st = false ->
    times <> [] ->
    failures st + Z.of_nat (List.length times) <= failure_threshold ->
    breaker_calls failure_threshold recovery_timeout func_name func times (st, f) =
    (mk_state (failures st + Z.of_nat (List.length times))
              (Some (last times 0))
              (failure_threshold
               <=? failures st + Z.of_nat (List.length times)),
     after_calls func (List.length times) f).
Proof.
  induction times as [| t rest IH]; intros st f Ho Hne Hlen; [congruence |].
  change (breaker_calls failure_threshold recovery_timeout func_name func (t :: rest)
            (st, f))
    with (breaker_calls failure_threshold recovery_timeout func_name func rest
            (snd (wrapper failure_threshold recovery_timeout func_name func t t (st, f)))).
  rewrite (failed_call_closed st f t Ho).
  destruct rest as [| t' rest'].
  - reflexivity.
  - assert (Hlt : failures st + 1 < failure_threshold).
    { cbn [List.length] in Hlen. lia. }
    rewrite IH.
    + cbn [failures].
      replace (failures st + 1 + Z.of_nat (List.length (t' :: rest')))
        with (failures st + Z.of_nat (List.length (t :: t' :: rest')))
        by (cbn [List.length]; lia).
      f_equal. unfold after_calls.
      change (List.length (t :: t' :: rest'))
        with (Datatypes.S (List.length (t' :: rest'))).
      symmetry. apply Nat.iter_succ_r.
    + cbn [open]. now apply Z.leb_gt.
    + discriminate.
    + cbn [failures]. cbn [List.length] in Hlen |- *. lia.
Qed.

End Failures.

(** X15. A function that fails on every call, behind a fresh breaker with a
    positive threshold: the circuit stays closed for the first
    [failure_threshold - 1] calls and is open after call number
    [failure_threshold], the function having been called each time; a
    further call less than [recovery_timeout] seconds after the last failure
    is then refused without calling the function. *)
Theorem breaker_opens_at_threshold {F A} failure_threshold recovery_timeout
    func_name (func : M F A) times f now :
  (forall f, exists e, fst (func f) = Raise e) ->
  times <> [] ->
  Z.of_nat (List.length times) <= failure_threshold ->
  let s := breaker_calls failure_threshold recovery_timeout func_name func times
             (initial, f) in
  failures (fst s) = Z.of_nat (List.length times)
  /\ open (fst s) = (failure_threshold <=? Z.of_nat (List.length times))
  /\ snd s = after_calls func (List.length times) f
  /\ (Z.of_nat (List.length times) = failure_threshold ->
      0 <= now - last times 0 < recovery_timeout * 1000000 ->
      wrapper failure_threshold recovery_timeout func_name func now now s =
      (Raise (Exception (circuit_open_message func_name)), s)).
Proof.
  intros Hfail Hne Hlen s. subst s.
  rewrite (failures_accumulate failure_threshold recovery_timeout func_name func
             Hfail
             times initial f eq_refl Hne) by (cbn [failures initial]; lia).
  cbn [fst snd failures open initial]. rewrite Z.add_0_l.
  repeat split.
  intros Hfull Hsoon. unfold wrapper. cbn [open last_failure].
  rewrite Hfull, Z.leb_refl.
  replace (timedelta_dot_seconds (now - last times 0) <? recovery_timeout)
    with true; [reflexivity |].
  symmetry. apply Z.ltb_lt, dot_seconds_below, Hsoon.
Qed.

Lemma breaker_opens_at_threshold_witness :
  let s := breaker_calls 5 60 "always_fails" Samples.always_fails
             [1000000; 2000000; 3000000; 4000000; 5000000]
             (initial, 0%nat) in
  failures (fst s) = 5
  /\ open (fst s) = (5 <=? 5)
  /\ snd s = after_calls Samples.always_fails 5 0%nat
  /\ (5 = 5 ->
      0 <= 30000000 - 5000000 < 60 * 1000000 ->
      wrapper 5 60 "always_fails" Samples.always_fails 30000000 30000000 s =
      (Raise (Exception (circuit_open_message "always_fails")), s)).
Proof.
  apply (breaker_opens_at_threshold 5 60 "always_fails" Samples.always_fails
           [1000000; 2000000; 3000000; 4000000; 5000000] 0%nat 30000000).
  - intros n. eexists. reflexivity.
  - discriminate.
  - cbn. lia.
Defined.

End BreakerMore.

(** ** error_handler.py: retry_with_backoff *)

Module RetryFacts.
Import Retry.

Section Facts.

Variable max_retries : Z.
Variable backoff_factor : Z.
Variable exceptions : exn -> bool.
Context {F A : Type}.
Variable func : M F A.

Lemma backoff_delays_succ first k :
  backoff_delays backoff_factor first (Datatypes.S k) =
  backoff_factor * 2 ^ first :: backoff_delays backoff_factor (first + 1) k.
Proof.
  unfold backoff_delays. cbn [seq map]. rewrite Z.add_0_r. f_equal.
  rewrite <- seq_shift, map_map. apply map_ext. intros i.
  do 2 f_equal. lia.
Qed.

(** The loop stops at call number [k] (counting from 0) when the [k] calls
    before it raised exceptions to retry on, and call [k] either is the last
    one allowed or ends in something else than such an exception: a value or
    another exception. *)
Lemma attempts_stop k :
  forall remaining attempt last_exception f sleeps,
    (k < remaining)%nat ->
    (forall i, (i < k)%nat ->
       exists e, fst (func (after_calls func i f)) = Raise e
                 /\ exceptions e = true) ->
    attempt + Z.of_nat k <= max_retries ->
    (attempt + Z.of_nat k = max_retries
     \/ forall e, fst (func (after_calls func k f)) = Raise e ->
                  exceptions e = false) ->
    attempts max_retries backoff_factor exceptions func remaining attempt
      last_exception (f, sleeps) =
    (fst (func (after_calls func k f)),
     (after_calls func (Datatypes.S k) f,
      (sleeps ++ backoff_delays backoff_factor attempt k)%list)).
Proof.
  induction k as [| k IH];
    intros remaining attempt last_exception f sleeps Hrem Hfail Hle Hstop.
  - destruct remaining as [| r]; [lia |].
    cbn [attempts after_calls Nat.iter nat_rect backoff_delays seq map].
    rewrite app_nil_r. cbn [after_calls Nat.iter nat_rect] in Hstop.
    destruct (func f) as [[result | e] f'] eqn:Hf; cbn [fst snd];
      [reflexivity |].
    destruct (exceptions e) eqn:He; [| reflexivity].
    destruct Hstop as [Hlast | Hother].
    + replace (attempt =? max_retries) with true; [reflexivity |].
      symmetry. apply Z.eqb_eq. cbn in Hlast. lia.
    + specialize (Hother e eq_refl). congruence.
  - destruct remaining as [| r]; [lia |].
    cbn [attempts].
    destruct (Hfail 0%nat ltac:(lia)) as (e0 & He0 & Hx0).
    cbn [after_calls Nat.iter nat_rect] in He0.
    destruct (func f) as [[result | e] f'] eqn:Hf; cbn [fst] in He0;
      [discriminate |].
    inversion He0; subst e0. rewrite Hx0.
    replace (attempt =? max_retries) with false
      by (symmetry; apply Z.eqb_neq; lia).
    assert (Hshift : forall i, after_calls func i f'
                               = after_calls func (Datatypes.S i) f).
    { intros i. unfold after_calls. rewrite Nat.iter_succ_r.
      now rewrite Hf. }
    rewrite (IH r (attempt + 1) (Some e) f'
               (sleeps ++ [backoff_factor * 2 ^ attempt])%list).
    + rewrite !Hshift, backoff_delays_succ, <- app_assoc. reflexivity.
    + lia.
    + intros i Hi. rewrite Hshift. apply Hfail. lia.
    + lia.
    + destruct Hstop as [Hlast | Hother]; [left; lia | right].
      intros e'. rewrite Hshift. apply Hother.
Qed.

End Facts.

(** X16. [retry_with_backoff] stops at the first call that does not raise
    one of the exceptions to retry on: after [k <= max_retries] such
    failures, the value or the other exception of call [k + 1] is what the
    caller gets, the function has been called [k + 1] times, and the sleeps
    were [backoff_factor * 2^i] for [i = 0 .. k-1]. *)
Theorem retry_stops_at_first_other_outcome {F A} max_retries backoff_factor
    exceptions (func : M F A) k f sleeps :
  Z.of_nat k <= max_retries ->
  (forall i, (i < k)%nat ->
     exists e, fst (func (after_calls func i f)) = Raise e
               /\ exceptions e = true) ->
  (forall e, fst (func (after_calls func k f)) = Raise e ->
             exceptions e = false) ->
  sync_wrapper max_retries backoff_factor exceptions func (f, sleeps) =
  (fst (func (after_calls func k f)),
   (after_calls func (Datatypes.S k) f,
    (sleeps ++ backoff_delays backoff_factor 0 k)%list)).
Proof.
  intros Hk Hfail Hother. unfold sync_wrapper.
  apply attempts_stop; [lia | assumption | lia | now right].
Qed.

Lemma retry_stops_at_first_other_outcome_witness :
  sync_wrapper 3 1 ConsolidatedApi.is_client_error (MoreSamples.flaky 2)
    (0%nat, []) =
  (fst (MoreSamples.flaky 2 (after_calls (MoreSamples.flaky 2) 2 0%nat)),
   (after_calls (MoreSamples.flaky 2) 3 0%nat,
    ([] ++ backoff_delays 1 0 2)%list)).
Proof.
  apply (retry_stops_at_first_other_outcome 3 1
           ConsolidatedApi.is_client_error (MoreSamples.flaky 2) 2 0%nat []).
  - lia.
  - intros i Hi. exists (NetworkFailure "reset").
    destruct i as [| [| i]]; [split; reflexivity | split; reflexivity | lia].
  - intros e. vm_compute. discriminate.
Defined.

(** X17. When every call raises an exception to retry on,
    [retry_with_backoff] calls the function [max_retries + 1] times, sleeps
    [backoff_factor * 2^i] for [i = 0 .. max_retries - 1] in between, and
    raises the exception of the last call. *)
Theorem retry_gives_up {F A} max_retries backoff_factor exceptions
    (func : M F A) f sleeps :
  0 <= max_retries ->
  (forall i, (i <= Z.to_nat max_retries)%nat ->
     exists e, fst (func (after_calls func i f)) = Raise e
               /\ exceptions e = true) ->
  sync_wrapper max_retries backoff_factor exceptions func (f, sleeps) =
  (fst (func (after_calls func (Z.to_nat max_retries) f)),
   (after_calls func (Datatypes.S (Z.to_nat max_retries)) f,
    (sleeps ++ backoff_delays backoff_factor 0 (Z.to_nat max_retries))%list)).
Proof.
  intros Hpos Hfail. unfold sync_wrapper.
  apply attempts_stop; try lia.
  intros i Hi. apply Hfail. lia.
Qed.

Lemma retry_gives_up_witness :
  sync_wrapper 3 1 ConsolidatedApi.is_client_error (MoreSamples.flaky 9)
    (0%nat, []) =
  (fst (MoreSamples.flaky 9 (after_calls (MoreSamples.flaky 9) (Z.to_nat 3)
                               0%nat)),
   (after_calls (MoreSamples.flaky 9) (Datatypes.S (Z.to_nat 3)) 0%nat,
    ([] ++ backoff_delays 1 0 (Z.to_nat 3))%list)).
Proof.
  apply (retry_gives_up 3 1 ConsolidatedApi.is_client_error
           (MoreSamples.flaky 9) 0%nat []).
  - lia.
  - intros i Hi. exists (NetworkFailure "reset").
    change (Z.to_nat 3) with 3%nat in Hi.
    destruct i as [| [| [| [| i]]]]; try (split; reflexivity). lia.
Defined.

(** X18. With a negative [max_retries] the function is never called: the
    loop has no turn, and the [raise last_exception] behind it raises
    [TypeError] because there is no exception to raise. *)
Theorem retry_negative_never_calls {F A} max_retries backoff_factor
    exceptions (func : M F A) f sleeps :
  max_retries < 0 ->
  sync_wrapper max_retries backoff_factor exceptions func (f, sleeps) =
  (Raise (TypeError "exceptions must derive from BaseException"), (f, sleeps)).
Proof.
  intros Hneg. unfold sync_wrapper.
  replace (Z.to_nat (max_retries + 1)) with 0%nat by lia. reflexivity.
Qed.

Lemma retry_negative_never_calls_witness :
  sync_wrapper (-1) 1 ConsolidatedApi.is_client_error Samples.always_succeeds
    (0%nat, []) =
  (Raise (TypeError "exceptions must derive from BaseException"), (0%nat, [])).
Proof.
  apply (retry_negative_never_calls (-1) 1 ConsolidatedApi.is_client_error
           Samples.always_succeeds 0%nat []).
  lia.
Defined.

End RetryFacts.

(** ** consolidated server: token refresh and the decorated request *)

Module ConsolidatedApiFacts.
Import ConsolidatedApi.

#[local] Arguments String.append : simpl never.

Section Facts.

Variable zoho_config : config.
Variable net : network.
Variable str : exn -> string.
Variable response_json : api_response -> exn + string.

Lemma consolidated_token_raises s e :
  fst (get_valid_token zoho_config net str s) = Raise e ->
  exists detail, e = HTTPException 500 detail.
Proof.
  unfold get_valid_token, bind at 1, get at 1.
  destruct (token_usable s); [discriminate |].
  destruct (negb (truthy (Consolidated._refresh_token (store s))));
    [cbn; inversion 1; eauto |].
  unfold try_except.
  match goal with
  | |- context [let (o, w') := ?m in _] => destruct m as [[a | e'] s1]
  end; cbn [fst raise]; [discriminate | inversion 1; eauto].
Qed.

Lemma handle_raises {B} (e : exn) s :
  exists code detail,
    @handle str B e s = (Raise (HTTPException code detail), s).
Proof. destruct e; do 2 eexists; reflexivity. Qed.

Lemma make_zoho_request_raises method endpoint data files s e :
  fst (make_zoho_request zoho_config net str response_json
         method endpoint data files s) = Raise e ->
  exists code detail, e = HTTPException code detail.
Proof.
  unfold make_zoho_request, try_except.
  match goal with
  | |- context [let (o, w') := ?m in _] => destruct m as [[a | e'] s1]
  end; cbn [fst]; [discriminate |].
  destruct (handle_raises (B := string) e' s1) as (c & d & H).
  rewrite H. cbn. inversion 1. eauto.
Qed.

(** The filter of the retry decorator lets every failure of
    [make_zoho_request] through. *)
Lemma make_zoho_request_not_retried method endpoint data files s e :
  fst (make_zoho_request zoho_config net str response_json
         method endpoint data files s) = Raise e ->
  is_client_error e = false.
Proof.
  intros H. apply make_zoho_request_raises in H.
  destruct H as (c & d & ->). reflexivity.
Qed.

End Facts.

(** X19. Every failure of the consolidated [make_zoho_request] reaches its
    caller as an [HTTPException]: the transport errors that the retry
    decorator is set to retry on never leave the function. *)
Theorem consolidated_request_raises_http zoho_config net str response_json
    method endpoint data files s e :
  fst (make_zoho_request zoho_config net str response_json
         method endpoint data files s) = Raise e ->
  (exists code detail, e = HTTPException code detail)
  /\ is_client_error e = false.
Proof.
  intros H. split.
  - now apply make_zoho_request_raises in H.
  - now apply make_zoho_request_not_retried in H.
Qed.

Lemma consolidated_request_raises_http_witness :
  (exists code detail,
     HTTPException 500 ("Zoho API network error: " ++ "down")
     = HTTPException code detail)
  /\ is_client_error
       (HTTPException 500 ("Zoho API network error: " ++ "down")) = false.
Proof.
  apply (consolidated_request_raises_http MoreSamples.consolidated_config
           MoreSamples.net_down (fun _ => "down") (fun r => inr (text r))
           Legacy.GET "/Leads" None None MoreSamples.consolidated_with_token).
  vm_compute. reflexivity.
Defined.

(** X20. Under [retry_with_backoff(max_retries=3,
    exceptions=(aiohttp.ClientError, asyncio.TimeoutError))] the
    consolidated [make_zoho_request] runs exactly once per call and nothing
    is slept: the wrapper gives what the single run gives, whatever the
    network does. *)
Theorem consolidated_request_never_retried zoho_config net str response_json
    method endpoint data files s sleeps :
  let request := make_zoho_request zoho_config net str response_json
                   method endpoint data files in
  Retry.sync_wrapper 3 1 is_client_error request (s, sleeps) =
  (fst (request s), (snd (request s), sleeps)).
Proof.
  intros request.
  pose proof (RetryFacts.attempts_stop 3 1 is_client_error request 0
                (Z.to_nat (3 + 1)) 0 None s sleeps) as H.
  cbn [after_calls Nat.iter nat_rect backoff_delays seq map] in H.
  rewrite app_nil_r in H. apply H.
  - cbn. lia.
  - intros i Hi. lia.
  - lia.
  - right. intros e He.
    apply (make_zoho_request_not_retried zoho_config net str response_json
             method endpoint data files s e He).
Qed.

Section Composition.

Variable zoho_config : config.
Variable net : network.
Variable str : exn -> string.
Variable response_json : api_response -> exn + string.
Variable method : Legacy.http_method.
Variable endpoint : string.
Variable data files : option string.

Let request : M state string :=
  make_zoho_request zoho_config net str response_json
    method endpoint data files.

Let retried : M (state * list Z) string :=
  Retry.sync_wrapper 3 1 is_client_error request.

Lemma retried_single_run s sleeps :
  retried (s, sleeps) = (fst (request s), (snd (request s), sleeps)).
Proof.
  pose proof (RetryFacts.attempts_stop 3 1 is_client_error request 0
                (Z.to_nat (3 + 1)) 0 None s sleeps) as H.
  cbn [after_calls Nat.iter nat_rect backoff_delays seq map] in H.
  rewrite app_nil_r in H. apply H.
  - cbn. lia.
  - intros i Hi. lia.
  - lia.
  - right. intros e He.
    apply (make_zoho_request_not_retried zoho_config net str response_json
             method endpoint data files s e He).
Qed.

Lemma retried_keeps_sleeps n :
  forall f, snd (after_calls retried n f) = snd f.
Proof.
  induction n as [| n IH]; intros f; [reflexivity |].
  change (after_calls retried (Datatypes.S n) f)
    with (snd (retried (after_calls retried n f))).
  rewrite <- (IH f).
  destruct (after_calls retried n f) as [s' sleeps'].
  now rewrite retried_single_run.
Qed.

Hypothesis api_refuses :
  forall l q, exists r,
    api_endpoint net l q = inr r
    /\ status_code r <> 200 /\ status_code r <> 201.

Lemma request_fails s : exists e, fst (request s) = Raise e.
Proof.
  subst request. unfold make_zoho_request, try_except.
  match goal with
  | |- context [let (o, w') := ?m in _] =>
      assert (Hbody : exists e s', m = (Raise e, s'))
  end.
  { unfold bind at 1.
    destruct (get_valid_token zoho_config net str s) as [[token | e] s1];
      [| eauto].
    cbv zeta.
    assert (Hsend : forall q,
      exists e s',
        (response <- session_send net q;;
         match response_json response with
         | inl e => raise e
         | inr result =>
             if status_code response =? 401 then
               raise (HTTPException 401 "Zoho API authentication failed")
             else if status_code response =? 403 then
               raise (HTTPException 403 "Zoho API authorization failed")
             else if status_code response =? 429 then
               raise (HTTPException 429 "Zoho API rate limit exceeded")
             else if negb ((status_code response =? 200)
                           || (status_code response =? 201)) then
               raise (HTTPException 500
                        ("Zoho API error: " ++ str_of_int (status_code response)
                           ++ " - " ++ substring 0 200 result))
             else ret result
         end) s1 = (Raise e, s')).
    { intros q. unfold bind, session_send.
      destruct (api_refuses (sent s1) q) as (r & Hr & H200 & H201).
      rewrite Hr.
      assert (Hbad : negb ((status_code r =? 200) || (status_code r =? 201))
                     = true).
      { apply negb_true_iff, orb_false_iff. split; now apply Z.eqb_neq. }
      rewrite Hbad. unfold raise.
      destruct (response_json r) as [e | result]; [eauto |].
      destruct (status_code r =? 401); [eauto |].
      destruct (status_code r =? 403); [eauto |].
      destruct (status_code r =? 429); eauto. }
    destruct method as [| | | name]; try apply Hsend.
    - destruct files; apply Hsend.
    - unfold bind, raise. eauto. }
  destruct Hbody as (e & s' & Hbody). rewrite Hbody.
  destruct (handle_raises str (B := string) e s') as (c & d & H).
  rewrite H. eexists. reflexivity.
Qed.

Lemma retried_fails f : exists e, fst (retried f) = Raise e.
Proof.
  destruct f as [s sleeps]. rewrite retried_single_run.
  apply request_fails.
Qed.

Lemma five_failures_open times s :
  List.length times = 5%nat ->
  breaker_calls 5 60 "make_zoho_request" retried times (Breaker.initial, (s, [])) =
  (Breaker.mk_state 5 (Some (last times 0)) true,
   after_calls retried 5 (s, [])).
Proof.
  intros Hlen.
  rewrite (BreakerMore.failures_accumulate 5 60 "make_zoho_request" retried
             retried_fails
             times Breaker.initial (s, []) eq_refl).
  - rewrite Hlen. reflexivity.
  - destruct times; [discriminate | discriminate].
  - rewrite Hlen. cbn. lia.
Qed.

End Composition.

(** X21. The decorated [make_zoho_request] of the consolidated server, with
    an API that answers every request with a status other than 200 and 201
    (a 404, say): each call runs the request once, nothing is retried or
    slept, each call counts as a failure, and after five calls the circuit
    is open, so that a sixth call within 60 seconds of the fifth is refused
    with the circuit-open error without any traffic. *)
Theorem client_errors_open_circuit zoho_config net str response_json
    method endpoint data files times s now :
  (forall l q, exists r,
     api_endpoint net l q = inr r
     /\ status_code r <> 200 /\ status_code r <> 201) ->
  List.length times = 5%nat ->
  0 <= now - last times 0 < 60 * 1000000 ->
  let final :=
    breaker_calls 5 60 "make_zoho_request"
      (Retry.sync_wrapper 3 1 is_client_error
         (make_zoho_request zoho_config net str response_json
            method endpoint data files))
      times (Breaker.initial, (s, [])) in
  Breaker.open (fst final) = true
  /\ Breaker.failures (fst final) = 5
  /\ snd (snd final) = []
  /\ make_zoho_request_decorated zoho_config net str response_json
       method endpoint data files now now final =
     (Raise (Exception (Breaker.circuit_open_message "make_zoho_request")),
      final).
Proof.
  intros Hapi Hlen Hsoon final. subst final.
  rewrite (five_failures_open zoho_config net str response_json method
             endpoint data files Hapi times s Hlen).
  cbn [fst snd Breaker.open Breaker.failures].
  repeat split.
  - apply (retried_keeps_sleeps zoho_config net str response_json method
             endpoint data files 5 (s, [])).
  - unfold make_zoho_request_decorated, Breaker.wrapper.
    cbn [Breaker.open Breaker.last_failure].
    replace (Breaker.timedelta_dot_seconds (now - last times 0) <? 60)
      with true; [reflexivity |].
    symmetry. apply Z.ltb_lt, BreakerMore.dot_seconds_below, Hsoon.
Qed.

Lemma client_errors_open_circuit_witness :
  let times := [1000000; 2000000; 3000000; 4000000; 5000000] in
  let final :=
    breaker_calls 5 60 "make_zoho_request"
      (Retry.sync_wrapper 3 1 is_client_error
         (make_zoho_request MoreSamples.consolidated_config Samples.net_404
            (fun _ => "error") (fun r => inr (text r))
            Legacy.GET "/Leads" None None))
      times (Breaker.initial, (MoreSamples.consolidated_with_token, [])) in
  Breaker.open (fst final) = true
  /\ Breaker.failures (fst final) = 5
  /\ snd (snd final) = []
  /\ make_zoho_request_decorated MoreSamples.consolidated_config
       Samples.net_404 (fun _ => "error") (fun r => inr (text r))
       Legacy.GET "/Leads" None None 30000000 30000000 final =
     (Raise (Exception (Breaker.circuit_open_message "make_zoho_request")),
      final).
Proof.
  apply (client_errors_open_circuit MoreSamples.consolidated_config
           Samples.net_404 (fun _ => "error") (fun r => inr (text r))
           Legacy.GET "/Leads" None None
           [1000000; 2000000; 3000000; 4000000; 5000000]
           MoreSamples.consolidated_with_token 30000000).
  - intros l q. exists Samples.reply_404. repeat split; discriminate.
  - reflexivity.
  - cbn. lia.
Defined.



(** X24. A granted refresh of the consolidated [get_valid_token] whose
    expiry cannot be computed: the new access token is already in memory
    when the [OverflowError] is raised; the handler turns it into an
    [HTTPException] with status 500, the expiry in memory stays as it was,
    and nothing is written to the token file. *)
Theorem expiry_overflow_saves_nothing zoho_config net str s response td e :
  token_usable s = false ->
  truthy (Consolidated._refresh_token (store s)) = true ->
  auth_endpoint net (sent s) (consolidated_refresh_form zoho_config s)
  = inr response ->
  auth_status response = 200 ->
  auth_json response = Some td ->
  td_access_token td <> Missing ->
  local_datetime_after s (get_default (td_expires_in td) 3600 - 300) = inl e ->
  let run := get_valid_token zoho_config net str s in
  fst run = Raise (HTTPException 500 ("Token refresh error: " ++ str e))
  /\ Consolidated._access_token (store (snd run)) = jget (td_access_token td)
  /\ Consolidated._token_expires_at (store (snd run))
     = Consolidated._token_expires_at (store s)
  /\ Consolidated.TOKEN_FILE (store (snd run))
     = Consolidated.TOKEN_FILE (store s)
  /\ sent (snd run) =
     (sent s ++ [AuthPost (consolidated_refresh_form zoho_config s)])%list.
Proof.
  intros Hstale Hrt Hreply Hst Hjs Hacc Hdate run.
  assert (Hrun : run =
    (Raise (HTTPException 500 ("Token refresh error: " ++ str e)),
     set_store (set_access (jget (td_access_token td)) (store s))
       (record_event (AuthPost (consolidated_refresh_form zoho_config s)) s))).
  { subst run. unfold get_valid_token, bind at 1, get at 1.
    rewrite Hstale, Hrt. cbn [negb].
    unfold try_except, bind at 1, session_post.
    fold (consolidated_refresh_form zoho_config s).
    rewrite Hreply, Hst. change (negb (200 =? 200)) with false. cbv iota.
    rewrite Hjs.
    destruct (td_access_token td) as [| | tok]; [congruence | |];
      unfold bind, modify, get;
      match goal with
      | |- context [local_datetime_after ?x ?n] =>
          change (local_datetime_after x n)
            with (local_datetime_after s
                    (get_default (td_expires_in td) 3600 - 300))
      end;
      rewrite Hdate; reflexivity. }
  rewrite Hrun. repeat split.
Qed.

Lemma expiry_overflow_saves_nothing_witness :
  let s := MoreSamples.consolidated_fresh in
  let run := get_valid_token MoreSamples.consolidated_config
               Samples.net_negative_expiry (fun _ => "overflow") s in
  fst run = Raise (HTTPException 500 ("Token refresh error: " ++ "overflow"))
  /\ Consolidated._access_token (store (snd run)) = Some "AT_NEW"
  /\ Consolidated._token_expires_at (store (snd run))
     = Consolidated._token_expires_at (store s)
  /\ Consolidated.TOKEN_FILE (store (snd run))
     = Consolidated.TOKEN_FILE (store s)
  /\ sent (snd run) =
     (sent s
        ++ [AuthPost (consolidated_refresh_form MoreSamples.consolidated_config
                        s)])%list.
Proof.
  apply (expiry_overflow_saves_nothing MoreSamples.consolidated_config
           Samples.net_negative_expiry (fun _ => "overflow")
           MoreSamples.consolidated_fresh
           (Samples.token_reply (Value "AT_NEW") (Some (-100000000000000)))
           (mk_token_data (Value "AT_NEW") None (Some (-100000000000000)))
           (OverflowError
              "days=-1157407408; must have magnitude <= 999999999"));
    try reflexivity; discriminate.
Defined.

End ConsolidatedApiFacts.
